(** * Offline mutation queue of the task service (services/taskService.ts)

    A shallow embedding of [TaskService]: the persisted task collection and
    offline-action queue (two AsyncStorage records), the session collaborator
    (token and current user), the remote gateway ([fetch]) and the clock are
    threaded through a small state-and-exception monad.  Every remote answer,
    clock reading and random string is supplied by an oracle indexed by the
    number of the call, so a theorem quantified over the environment covers
    every pattern of remote successes and failures. *)

From Stdlib Require Import ZArith Lia String Ascii.
From stdpp Require Import base list strings.

Local Open Scope string_scope.
Local Open Scope list_scope.
Local Open Scope Z_scope.

(** ** JavaScript values used by the service *)

(** A JavaScript number holding an integer, or [NaN] ([None]).  Identifiers
    and time values (milliseconds since the epoch) are such numbers. *)
Definition number := option Z.

(** [a === b] on numbers: [NaN] is equal to nothing, not even to itself. *)
Definition strict_eq (a b : number) : bool :=
  match a, b with
  | Some x, Some y => x =? y
  | _, _ => false
  end.

(** A [Date] object is its time value; [Some None] in an optional field is an
    Invalid Date, which is still a truthy object. *)
Definition Date := number.

(** Truthiness of an optional string: [undefined], [null] and the empty
    string are falsy. *)
Definition truthy (s : option string) : bool :=
  match s with
  | Some (String _ _) => true
  | _ => false
  end.

Module Js.

Definition digit_char (d : Z) : ascii := ascii_of_nat (48 + Z.to_nat d).

(** Decimal digits of [n >= 0], most significant first, pushed in front of
    [acc]. *)
Fixpoint digits_acc (fuel : nat) (n : Z) (acc : string) : string :=
  let acc' := String (digit_char (n mod 10)) acc in
  match fuel with
  | O => acc'
  | S f => if n <? 10 then acc' else digits_acc f (n / 10) acc'
  end.

Definition digits (n : Z) : string := digits_acc (Z.to_nat (Z.log2 n)) n "".

(** [String(n)] for an integer-valued number. *)
Definition Z_to_string (n : Z) : string :=
  if n <? 0 then String "-" (digits (- n)) else digits n.

Definition toString (n : number) : string :=
  match n with
  | Some z => Z_to_string z
  | None => "NaN"
  end.

Definition digit_value (c : ascii) : option Z :=
  let n := nat_of_ascii c in
  if ((48 <=? n) && (n <=? 57))%nat then Some (Z.of_nat n - 48) else None.

Definition hex_value (c : ascii) : option Z :=
  let n := nat_of_ascii c in
  if ((48 <=? n) && (n <=? 57))%nat then Some (Z.of_nat n - 48)
  else if ((65 <=? n) && (n <=? 70))%nat then Some (Z.of_nat n - 55)
  else if ((97 <=? n) && (n <=? 102))%nat then Some (Z.of_nat n - 87)
  else None.

(** Longest prefix of valid digits, read in the given radix. *)
Fixpoint read_digits (value : ascii -> option Z) (radix acc : Z) (s : string) : Z :=
  match s with
  | String c s' =>
      match value c with
      | Some d => read_digits value radix (radix * acc + d) s'
      | None => acc
      end
  | EmptyString => acc
  end.

Definition starts_with_digit (value : ascii -> option Z) (s : string) : bool :=
  match s with
  | String c _ => bool_decide (is_Some (value c))
  | EmptyString => false
  end.

Definition is_space (c : ascii) : bool :=
  let n := nat_of_ascii c in ((9 <=? n) && (n <=? 13) || (n =? 32))%nat.

Fixpoint skip_spaces (s : string) : string :=
  match s with
  | String c s' => if is_space c then skip_spaces s' else s
  | EmptyString => s
  end.

Definition read_number (value : ascii -> option Z) (radix : Z) (s : string) : number :=
  if starts_with_digit value s then Some (read_digits value radix 0 s) else None.

Definition strip_sign (s : string) : bool * string :=
  match s with
  | String "-" s' => (true, s')
  | String "+" s' => (false, s')
  | _ => (false, s)
  end.

Definition with_sign (neg : bool) (n : number) : number :=
  if neg then Z.opp <$> n else n.

(** [parseInt(s, 10)]. *)
Definition parseInt10 (s : string) : number :=
  let '(neg, body) := strip_sign (skip_spaces s) in
  with_sign neg (read_number digit_value 10 body).

(** [parseInt(s)] without a radix: a [0x] prefix selects base 16. *)
Definition parseInt (s : string) : number :=
  let '(neg, body) := strip_sign (skip_spaces s) in
  with_sign neg
    match body with
    | String "0" (String "x" h) | String "0" (String "X" h) =>
        read_number hex_value 16 h
    | _ => read_number digit_value 10 body
    end.

Fixpoint drop_chars (n : nat) (s : string) : string :=
  match n, s with
  | S n', String _ s' => drop_chars n' s'
  | _, _ => s
  end.

(** [s.replace(pat, rep)] with a string pattern: the first occurrence only. *)
Fixpoint replace (pat rep s : string) : string :=
  if String.prefix pat s then rep +:+ drop_chars (String.length pat) s
  else match s with
       | String c s' => String c (replace pat rep s')
       | EmptyString => EmptyString
       end.

(** [s.substring(from, to)] for [from <= to]. *)
Definition substring (from to : nat) (s : string) : string :=
  String.substring from (to - from) s.

End Js.

(** ** Data model *)

(** [Task.user]. *)
Record User := mkUser {
  user_id : number;
  username : string;
}.

(** [interface Task].  A field the interface marks optional, or that a
    record decoded from JSON can lack, is an [option]; [None] stands for
    [undefined] and [null] alike.  [task_id] is the field [id]: [None] there
    is a missing or [NaN] identifier, which [===] never matches. *)
Record Task := mkTask {
  task_id : number;
  title : option string;
  completed : option bool;
  due_date : option string;
  dueDate : option Date;
  user : option User;
  userId : option string;
  isLocal : option bool;
  needsSync : option bool;
}.

(** [interface CreateTaskData]. *)
Record CreateTaskData := mkCreateTaskData {
  create_title : string;
  create_dueDate : option string;
}.

(** [interface UpdateTaskData]. *)
Record UpdateTaskData := mkUpdateTaskData {
  update_title : option string;
  update_completed : option bool;
  update_dueDate : option string;
}.

(** [OfflineAction.type]. *)
Inductive ActionType := create | update | delete.

(** [OfflineAction.data]: the payload handed to [createTask] or
    [updateTask]. *)
Inductive ActionData :=
| CreateData (d : CreateTaskData)
| UpdateData (d : UpdateTaskData).

(** [interface OfflineAction]. *)
Record OfflineAction := mkOfflineAction {
  action_id : string;
  type : ActionType;
  taskId : number;
  data : option ActionData;
  timestamp : Date;
}.

(** The user record of the session collaborator ([authService], whose
    source is not part of this service): [createTask] reads [user.id] as a
    string and [user.username]. *)
Record AuthUser := mkAuthUser {
  auth_id : string;
  auth_username : string;
}.

(** ** The remote gateway *)

Inductive Method := GET | POST | PUT | DELETE.

(** One call of [fetch]: the method, the URL, the bearer token and the body
    before [JSON.stringify]. *)
Record Request := mkRequest {
  method : Method;
  url : string;
  bearer : string;
  body : option ActionData;
}.

(** The [data] member of a decoded answer. *)
Inductive ResponseData :=
| NoData
| OneTask (t : Task)
| TaskList (l : list Task).

(** A decoded answer, [{status_code, data}]. *)
Record ApiResponse := mkApiResponse {
  status_code : Z;
  response_data : ResponseData;
}.

(** What [fetch] resolves to: [response.ok], [response.status] and the
    outcome of [response.json()], [None] when the body does not parse. *)
Record Response := mkResponse {
  ok : bool;
  status : Z;
  json : option ApiResponse;
}.

(** [fetch] either rejects (network failure) or resolves to a response. *)
Inductive FetchOutcome :=
| Rejected
| Resolved (r : Response).

(** ** Environment and state *)

(** Everything the service reads from outside.  [replies n] answers the
    [n]-th call of [fetch] since the start, [time_at n] is the [n]-th reading
    of the clock ([Date.now()] or [new Date()]) in milliseconds, [random_at n]
    is the [n]-th value of [Math.random().toString(36).substr(2, 9)].
    [Date_parse s] is the time value of [new Date(s)], and [utc_offset] the
    distance in milliseconds of local time from UTC. *)
Record Env := mkEnv {
  getToken : option string;
  getCurrentUser : option AuthUser;
  replies : nat -> FetchOutcome;
  time_at : nat -> Z;
  random_at : nat -> string;
  Date_parse : string -> number;
  utc_offset : Z;
}.

(** The two AsyncStorage records ([None]: the key is absent) and the
    history of the calls made so far.  A record holds what [JSON.stringify]
    wrote; the only field that does not survive the round trip as it is,
    [dueDate], is recomputed by every reader. *)
Record World := mkWorld {
  tasks_item : option (list Task);
  actions_item : option (list OfflineAction);
  requests : list Request;
  clock_reads : nat;
  random_reads : nat;
}.

Definition set_tasks_item (v : option (list Task)) (w : World) : World :=
  mkWorld v (actions_item w) (requests w) (clock_reads w) (random_reads w).

Definition set_actions_item (v : option (list OfflineAction)) (w : World) : World :=
  mkWorld (tasks_item w) v (requests w) (clock_reads w) (random_reads w).

Definition push_request (r : Request) (w : World) : World :=
  mkWorld (tasks_item w) (actions_item w) (requests w ++ [r])
          (clock_reads w) (random_reads w).

Definition tick_clock (w : World) : World :=
  mkWorld (tasks_item w) (actions_item w) (requests w)
          (S (clock_reads w)) (random_reads w).

Definition tick_random (w : World) : World :=
  mkWorld (tasks_item w) (actions_item w) (requests w)
          (clock_reads w) (S (random_reads w)).

(** ** The monad of asynchronous operations *)

(** What a [throw] carries: [new Error(message)], or one of the errors
    raised by the runtime. *)
Inductive Error :=
| JsError (message : string)
| TypeError
| SyntaxError
| NetworkRequestFailed.

Definition AuthenticationRequired : Error := JsError "User not authenticated".
Definition TaskNotFound : Error := JsError "Task not found".

Inductive Result (A : Type) :=
| Ok (a : A)
| Throw (e : Error).
Arguments Ok {A} a.
Arguments Throw {A} e.

Definition M (A : Type) : Type := Env -> World -> Result A * World.

Definition ret {A} (a : A) : M A := fun _ w => (Ok a, w).

Definition throw {A} (e : Error) : M A := fun _ w => (Throw e, w).

Definition bind {A B} (m : M A) (k : A -> M B) : M B :=
  fun e w =>
    match m e w with
    | (Ok a, w') => k a e w'
    | (Throw err, w') => (Throw err, w')
    end.

(** [try { m } catch (error) { h error }]. *)
Definition try_catch {A} (m : M A) (h : Error -> M A) : M A :=
  fun e w =>
    match m e w with
    | (Ok a, w') => (Ok a, w')
    | (Throw err, w') => h err e w'
    end.

Definition ask : M Env := fun e w => (Ok e, w).
Definition get : M World := fun _ w => (Ok w, w).
Definition modify (f : World -> World) : M unit := fun _ w => (Ok tt, f w).

Notation "'let*' x ':=' m 'in' k" := (bind m (fun x => k))
  (at level 10, x name, m at level 100, k at level 200).

(** [Date.now()], also the time value of [new Date()]. *)
Definition Date_now : M Z :=
  let* e := ask in
  let* w := get in
  let* _ := modify tick_clock in
  ret (time_at e (clock_reads w)).

(** [Math.random().toString(36).substr(2, 9)]. *)
Definition Math_random : M string :=
  let* e := ask in
  let* w := get in
  let* _ := modify tick_random in
  ret (random_at e (random_reads w)).

(** [await fetch(url, options)]: the request is recorded, and the oracle
    answers it. *)
Definition fetch (r : Request) : M Response :=
  let* e := ask in
  let* w := get in
  let* _ := modify (push_request r) in
  match replies e (length (requests w)) with
  | Rejected => throw NetworkRequestFailed
  | Resolved resp => ret resp
  end.

(** [await response.json()]. *)
Definition response_json (r : Response) : M ApiResponse :=
  match json r with
  | Some b => ret b
  | None => throw SyntaxError
  end.

(** [const token = await authService.getToken();
     if (!token) throw new Error('No auth token');] *)
Definition require_token : M string :=
  let* e := ask in
  if truthy (getToken e) then ret (default "" (getToken e))
  else throw (JsError "No auth token").

(** [for (const x of xs) { body(x) }]. *)
Fixpoint for_each {A} (xs : list A) (body : A -> M unit) : M unit :=
  match xs with
  | [] => ret tt
  | x :: rest => let* _ := body x in for_each rest body
  end.

(** ** The task service *)

(** [`${API_BASE_URL}${API_CONFIG.ENDPOINTS.TASKS}`] with the constants of
    config/api.ts. *)
Definition apiUrl : string := "http://192.168.1.28:3000/tasks".

(** [s ? new Date(s) : undefined]. *)
Definition date_if_truthy (parse : string -> number) (s : option string) : option Date :=
  match s with
  | Some (String _ _ as str) => Some (parse str)
  | _ => None
  end.

(** [s || null]. *)
Definition or_null (s : option string) : option string :=
  if truthy s then s else None.

(** [backendTask.user?.id?.toString() || '1']: a record decoded from JSON
    has an integer [id] or none. *)
Definition backend_userId (u : option User) : string :=
  match u with
  | Some (mkUser (Some n) _) => Js.Z_to_string n
  | _ => "1"
  end.

Definition convertBackendTask (parse : string -> number) (backendTask : Task) : Task :=
  mkTask (task_id backendTask) (title backendTask)
         (Some (default false (completed backendTask)))
         (due_date backendTask)
         (date_if_truthy parse (due_date backendTask))
         (user backendTask)
         (Some (backend_userId (user backendTask)))
         (isLocal backendTask) (needsSync backendTask).

(** The mapping callback of [getStoredTasks]:
    [{...task, dueDate: task.due_date ? new Date(task.due_date) : undefined}]. *)
Definition revive (parse : string -> number) (task : Task) : Task :=
  mkTask (task_id task) (title task) (completed task) (due_date task)
         (date_if_truthy parse (due_date task))
         (user task) (userId task) (isLocal task) (needsSync task).

Definition getStoredTasks : M (list Task) :=
  let* e := ask in
  let* w := get in
  match tasks_item w with
  | None => ret []
  | Some tasks => ret (map (revive (Date_parse e)) tasks)
  end.

Definition storeTasks (tasks : list Task) : M unit :=
  modify (set_tasks_item (Some tasks)).

(** The [timestamp] of a queued action is written as an ISO string and read
    back with [new Date]: the same time value. *)
Definition getOfflineActions : M (list OfflineAction) :=
  let* w := get in
  match actions_item w with
  | None => ret []
  | Some actions => ret actions
  end.

Definition storeOfflineAction (action : OfflineAction) : M unit :=
  let* actions := getOfflineActions in
  modify (set_actions_item (Some (actions ++ [action]))).

Definition clearOfflineActions : M unit :=
  modify (set_actions_item None).

Definition generateId : M string :=
  let* now := Date_now in
  let* rnd := Math_random in
  ret ("local_" +:+ Js.Z_to_string now +:+ "_" +:+ rnd).

(** [parseInt(id.replace('local_', '').substring(0, 8), 10)], the
    provisional identifier [createTask] derives from a generated id. *)
Definition localId (generated : string) : number :=
  Js.parseInt10 (Js.substring 0 8 (Js.replace "local_" "" generated)).

(** [apiResponse.data] used as an array: anything else has no [map]. *)
Definition as_array (d : ResponseData) : M (list Task) :=
  match d with
  | TaskList l => ret l
  | _ => throw TypeError
  end.

(** An object none of whose members is a field of [Task]. *)
Definition no_fields : Task :=
  mkTask None None None None None None None None None.

(** [apiResponse.data] used as a record: a member of [undefined] cannot be
    read, and an array has none of the fields. *)
Definition as_object (d : ResponseData) : M Task :=
  match d with
  | NoData => throw TypeError
  | OneTask t => ret t
  | TaskList _ => ret no_fields
  end.

(** The [try] block of [fetchTasks]. *)
Definition fetchTasks_remote : M (list Task) :=
  let* token := require_token in
  let* response := fetch (mkRequest GET apiUrl token None) in
  if negb (ok response) then throw (JsError "Failed to fetch tasks") else
  let* apiResponse := response_json response in
  if negb (status_code apiResponse =? 200)
  then throw (JsError "API returned error status") else
  let* backend := as_array (response_data apiResponse) in
  let* e := ask in
  let convertedTasks := map (convertBackendTask (Date_parse e)) backend in
  let* _ := storeTasks convertedTasks in
  ret convertedTasks.

Definition fetchTasks : M (list Task) :=
  try_catch fetchTasks_remote (fun _ => getStoredTasks).

(** [freshTasks.find(t => t.title === apiResponse.data.title &&
                          t.due_date === apiResponse.data.due_date)]:
    the callback runs, and reads [apiResponse.data], only when there is a
    task to test.  Between members that are strings this is [===]; a member
    that is [null] and one that is absent are both [None] here, and [===]
    tells them apart, so what is proved of a match below is stated for a
    created record whose title and due date are strings. *)
Definition find_created (d : ResponseData) (freshTasks : list Task) : M (option Task) :=
  match freshTasks with
  | [] => ret None
  | _ =>
      let* created := as_object d in
      ret (List.find (fun t => bool_decide (title t = title created)
                               && bool_decide (due_date t = due_date created))
                     freshTasks)
  end.

(** The provisional task [createTask] builds before it tries the remote
    service. *)
Definition provisional_task (parse : string -> number) (current : AuthUser)
    (generated : string) (taskData : CreateTaskData) : Task :=
  mkTask (localId generated)
         (Some (create_title taskData))
         (Some false)
         (or_null (create_dueDate taskData))
         (date_if_truthy parse (create_dueDate taskData))
         (Some (mkUser (Js.parseInt (auth_id current)) (auth_username current)))
         (Some (auth_id current))
         (Some true)
         (Some true).

(** The [try] block of [createTask]. *)
Definition createTask_remote (current : AuthUser) (taskData : CreateTaskData) : M Task :=
  let* token := require_token in
  let* response := fetch (mkRequest POST apiUrl token (Some (CreateData taskData))) in
  if ok response then
    let* apiResponse := response_json response in
    if (status_code apiResponse =? 200) || (status_code apiResponse =? 201) then
      let* newlyCreatedTask :=
        try_catch
          (let* freshTasks := fetchTasks in
           find_created (response_data apiResponse) freshTasks)
          (fun _ => ret None) in
      match newlyCreatedTask with
      | Some found => ret found
      | None =>
          let* now := Date_now in
          let* created := as_object (response_data apiResponse) in
          let* e := ask in
          match user created with
          | None => throw TypeError
          | Some owner =>
              ret (mkTask (Some now) (title created) (Some false)
                          (due_date created)
                          (date_if_truthy (Date_parse e) (due_date created))
                          (Some (mkUser (user_id owner) (auth_username current)))
                          (Some (auth_id current))
                          None None)
          end
      end
    else throw (JsError "Backend creation failed")
  else throw (JsError "Backend creation failed").

(** The [catch] block of [createTask]. *)
Definition createTask_offline (newTask : Task) (taskData : CreateTaskData) : M Task :=
  let* tasks := getStoredTasks in
  let* _ := storeTasks (tasks ++ [newTask]) in
  let* actionId := generateId in
  let* now := Date_now in
  let* _ := storeOfflineAction
              (mkOfflineAction actionId create (task_id newTask)
                               (Some (CreateData taskData)) (Some now)) in
  ret newTask.

Definition createTask (taskData : CreateTaskData) : M Task :=
  let* e := ask in
  match getCurrentUser e with
  | None => throw AuthenticationRequired
  | Some current =>
      let* generated := generateId in
      let newTask := provisional_task (Date_parse e) current generated taskData in
      try_catch (createTask_remote current taskData)
                (fun _ => createTask_offline newTask taskData)
  end.

(** [tasks.findIndex(t => t.id === taskId)], with the task found. *)
Definition findIndex (taskId : number) (tasks : list Task) : option (nat * Task) :=
  list_find (fun t => strict_eq (task_id t) taskId) tasks.

(** [{...task, ...updateData, dueDate: updateData.dueDate ?
      new Date(updateData.dueDate) : task.dueDate, needsSync: true}]. *)
Definition merge_update (parse : string -> number) (task : Task)
    (updateData : UpdateTaskData) : Task :=
  mkTask (task_id task)
         (match update_title updateData with Some t => Some t | None => title task end)
         (match update_completed updateData with
          | Some c => Some c
          | None => completed task
          end)
         (due_date task)
         (match date_if_truthy parse (update_dueDate updateData) with
          | Some d => Some d
          | None => dueDate task
          end)
         (user task) (userId task) (isLocal task)
         (Some true).

Definition task_url (taskId : number) : string :=
  apiUrl +:+ "/" +:+ Js.toString taskId.

(** The [try] block of [updateTask]. *)
Definition updateTask_remote (tasks : list Task) (taskIndex : nat)
    (taskId : number) (updateData : UpdateTaskData) : M Task :=
  let* token := require_token in
  let* response :=
    fetch (mkRequest PUT (task_url taskId) token (Some (UpdateData updateData))) in
  if ok response then
    let* apiResponse := response_json response in
    if status_code apiResponse =? 200 then
      let* raw := as_object (response_data apiResponse) in
      let* e := ask in
      let backendTask := convertBackendTask (Date_parse e) raw in
      let* _ := storeTasks (<[taskIndex := backendTask]> tasks) in
      ret backendTask
    else throw (JsError "Backend update failed")
  else throw (JsError "Backend update failed").

(** The [catch] block of [updateTask]. *)
Definition updateTask_offline (tasks : list Task) (taskIndex : nat)
    (taskId : number) (updateData : UpdateTaskData) (updatedTask : Task) : M Task :=
  let* _ := storeTasks (<[taskIndex := updatedTask]> tasks) in
  let* actionId := generateId in
  let* now := Date_now in
  let* _ := storeOfflineAction
              (mkOfflineAction actionId update taskId
                               (Some (UpdateData updateData)) (Some now)) in
  ret updatedTask.

Definition updateTask (taskId : number) (updateData : UpdateTaskData) : M Task :=
  let* tasks := getStoredTasks in
  match findIndex taskId tasks with
  | None => throw TaskNotFound
  | Some (taskIndex, old) =>
      let* e := ask in
      let updatedTask := merge_update (Date_parse e) old updateData in
      try_catch (updateTask_remote tasks taskIndex taskId updateData)
                (fun _ => updateTask_offline tasks taskIndex taskId updateData updatedTask)
  end.

(** [tasks.splice(taskIndex, 1)]. *)
Definition splice1 (taskIndex : nat) (tasks : list Task) : list Task :=
  base.delete taskIndex tasks.

(** The [try] block of [deleteTask]. *)
Definition deleteTask_remote (tasks : list Task) (taskIndex : nat)
    (taskId : number) : M unit :=
  let* token := require_token in
  let* response := fetch (mkRequest DELETE (task_url taskId) token None) in
  if ok response then
    let* apiResponse := response_json response in
    if status_code apiResponse =? 200 then
      storeTasks (splice1 taskIndex tasks)
    else throw (JsError "Backend deletion failed")
  else throw (JsError "Backend deletion failed").

(** The [catch] block of [deleteTask]. *)
Definition deleteTask_offline (tasks : list Task) (taskIndex : nat)
    (taskId : number) : M unit :=
  let* _ := storeTasks (splice1 taskIndex tasks) in
  let* actionId := generateId in
  let* now := Date_now in
  storeOfflineAction (mkOfflineAction actionId delete taskId None (Some now)).

Definition deleteTask (taskId : number) : M unit :=
  let* tasks := getStoredTasks in
  match findIndex taskId tasks with
  | None => throw TaskNotFound
  | Some (taskIndex, _) =>
      try_catch (deleteTask_remote tasks taskIndex taskId)
                (fun _ => deleteTask_offline tasks taskIndex taskId)
  end.

(** The request that replays one queued action (the [switch] of
    [syncOfflineChanges]). *)
Definition sync_request (token : string) (action : OfflineAction) : Request :=
  match type action with
  | create => mkRequest POST apiUrl token (data action)
  | update => mkRequest PUT (task_url (taskId action)) token (data action)
  | delete => mkRequest DELETE (task_url (taskId action)) token None
  end.

(** The body of the [try] inside the loop: the request, and the answer
    decoded for the log when [response.ok]. *)
Definition sync_action (token : string) (action : OfflineAction) : M unit :=
  let* response := fetch (sync_request token action) in
  if ok response then
    let* _ := response_json response in ret tt
  else ret tt.

Definition syncOfflineChanges : M unit :=
  let* actions := getOfflineActions in
  let* e := ask in
  if negb (truthy (getToken e)) || (length actions =? 0)%nat then ret tt else
  let token := default "" (getToken e) in
  let* _ := for_each actions
              (fun action => try_catch (sync_action token action) (fun _ => ret tt)) in
  let* _ := clearOfflineActions in
  let* _ := fetchTasks in
  ret tt.

Definition msPerDay : Z := 86400000.

(** [new Date(d.getFullYear(), d.getMonth(), d.getDate())]: the local
    midnight that starts the calendar day of [d]; an Invalid Date stays
    invalid. *)
Definition local_midnight (offset : Z) (d : Date) : Date :=
  match d with
  | Some t => Some ((t + offset) / msPerDay * msPerDay - offset)
  | None => None
  end.

(** The filter callback of [getDueTasks]. *)
Definition due_today (parse : string -> number) (offset : Z) (today : Date)
    (task : Task) : bool :=
  if negb (bool_decide (completed task = Some false)) then false else
  if negb (bool_decide (is_Some (dueDate task))) && negb (truthy (due_date task))
  then false else
  let taskDate :=
    match dueDate task with
    | Some d => Some d
    | None => date_if_truthy parse (due_date task)
    end in
  match taskDate with
  | None => false
  | Some d => strict_eq (local_midnight offset d) today
  end.

Definition getDueTasks : M (list Task) :=
  let* tasks := getStoredTasks in
  let* now := Date_now in
  let* e := ask in
  let today := local_midnight (utc_offset e) (Some now) in
  ret (List.filter (due_today (Date_parse e) (utc_offset e) today) tasks).

(** ** Observations on a state *)

(** The task collection as [getStoredTasks] reads it. *)
Definition stored_tasks (e : Env) (w : World) : list Task :=
  map (revive (Date_parse e)) (default [] (tasks_item w)).

(** The queue as [getOfflineActions] reads it. *)
Definition queue (w : World) : list OfflineAction :=
  default [] (actions_item w).

(** The answer the oracle gives to the next call of [fetch]. *)
Definition next_reply (e : Env) (w : World) : FetchOutcome :=
  replies e (length (requests w)).

(** The ways the remote read of [fetchTasks] fails: no token, a network
    error, a non-success HTTP status, a body that is not JSON, a status code
    other than 200 in the body, or a [data] member that is not an array. *)
Inductive get_fails (e : Env) (w : World) : Prop :=
| absent_token :
    truthy (getToken e) = false -> get_fails e w
| network_error :
    next_reply e w = Rejected -> get_fails e w
| non_success_status r :
    next_reply e w = Resolved r -> ok r = false -> get_fails e w
| unparsable_body r :
    next_reply e w = Resolved r -> json r = None -> get_fails e w
| error_status_code r b :
    next_reply e w = Resolved r -> json r = Some b -> status_code b <> 200 ->
    get_fails e w
| malformed_data r b :
    next_reply e w = Resolved r -> json r = Some b ->
    (forall l, response_data b <> TaskList l) -> get_fails e w.

(** The remote read succeeds: a 2xx answer whose body is
    [{status_code: 200, data: [...]}]. *)
Definition get_succeeds (o : FetchOutcome) : bool :=
  match o with
  | Resolved r =>
      ok r &&
      match json r with
      | Some b =>
          (status_code b =? 200) &&
          match response_data b with
          | TaskList _ => true
          | _ => false
          end
      | None => false
      end
  | Rejected => false
  end.

(** A 2xx answer whose body parses and carries the given status code. *)
Definition get_succeeds_status (code : Z) (o : FetchOutcome) : bool :=
  match o with
  | Resolved r =>
      ok r &&
      match json r with
      | Some b => status_code b =? code
      | None => false
      end
  | Rejected => false
  end.

(** ** Sequences of operations *)

Inductive Operation :=
| CreateTask (taskData : CreateTaskData)
| UpdateTask (id : number) (updateData : UpdateTaskData)
| DeleteTask (id : number)
| SyncOfflineChanges
| FetchTasks.

(** The state an operation leaves, whatever it returns or throws. *)
Definition perform (op : Operation) (e : Env) (w : World) : World :=
  match op with
  | CreateTask d => snd (createTask d e w)
  | UpdateTask i d => snd (updateTask i d e w)
  | DeleteTask i => snd (deleteTask i e w)
  | SyncOfflineChanges => snd (syncOfflineChanges e w)
  | FetchTasks => snd (fetchTasks e w)
  end.

(** A fresh installation: nothing stored, nothing called. *)
Definition initial : World := mkWorld None None [] 0 0.

(** States reached from a fresh installation by any sequence of operations,
    each in an environment of its own. *)
Inductive reachable : World -> Prop :=
| reachable_initial : reachable initial
| reachable_step op e w : reachable w -> reachable (perform op e w).

(** A queued action of the given kind for the identifier of [t]. *)
Definition pending (kind : ActionType) (t : Task) (q : list OfflineAction) : Prop :=
  exists a, a ∈ q /\ type a = kind /\ taskId a = task_id t.

(** Every flagged task of [tasks] has its action in [q]: a local task a
    pending [create], a task that needs sync and is not local a pending
    [update]. *)
Definition covered (tasks : list Task) (q : list OfflineAction) : Prop :=
  forall t, t ∈ tasks ->
    (isLocal t = Some true -> pending create t q) /\
    (needsSync t = Some true -> isLocal t <> Some true -> pending update t q).

(** The invariant of the data model, on the two stored records. *)
Definition flags_have_actions (w : World) : Prop :=
  covered (default [] (tasks_item w)) (queue w).

(** A record that carries neither flag set. *)
Definition unflagged (t : Task) : Prop :=
  isLocal t <> Some true /\ needsSync t <> Some true.

Definition tasks_of (d : ResponseData) : list Task :=
  match d with
  | NoData => []
  | OneTask t => [t]
  | TaskList l => l
  end.

(** The server never sends a record with [isLocal] or [needsSync] set. *)
Definition server_unflagged (e : Env) : Prop :=
  forall n r b t,
    replies e n = Resolved r -> json r = Some b ->
    t ∈ tasks_of (response_data b) -> unflagged t.

(** A run of [syncOfflineChanges] that returns at once, or whose closing
    [fetchTasks] (the call after one request per queued action) succeeds. *)
Definition sync_refreshes (e : Env) (w : World) : Prop :=
  truthy (getToken e) = false \/ queue w = [] \/
  get_succeeds (replies e (length (requests w) + length (queue w))%nat) = true.

Definition refreshing (op : Operation) (e : Env) (w : World) : Prop :=
  match op with
  | SyncOfflineChanges => sync_refreshes e w
  | _ => True
  end.

(** Reachability through operations answered by a server that sends no
    flags, every [syncOfflineChanges] being one that refreshes. *)
Inductive reachable_refreshing : World -> Prop :=
| refreshing_initial : reachable_refreshing initial
| refreshing_step op e w :
    reachable_refreshing w -> server_unflagged e -> refreshing op e w ->
    reachable_refreshing (perform op e w).

(** ** Calendar days and leading digits *)

(** The number of the local calendar day that contains the instant [t]. *)
Definition local_day (offset t : Z) : Z := (t + offset) / msPerDay.

(** The condition of the due-task query in the words of its description:
    [completed] exactly false, a due date, and the due date normalized to
    midnight equal to the current instant normalized to midnight. *)
Definition due_on_current_day (offset now : Z) (t : Task) : Prop :=
  completed t = Some false /\
  exists d, dueDate t = Some (Some d) /\
            local_midnight offset (Some d) = local_midnight offset (Some now).

Fixpoint leading (fuel : nat) (bound n : Z) : Z :=
  match fuel with
  | O => n
  | S f => if n <? bound then n else leading f bound (n / 10)
  end.

(** The integer formed by the first 8 decimal digits of [n >= 0] (all of
    them when there are fewer). *)
Definition first_8_digits (n : Z) : Z :=
  leading (Z.to_nat (Z.log2 n)) (10 ^ 8) n.

(** Twenty-eight hours, in milliseconds. *)
Definition hours28 : Z := 28 * 3600 * 1000.

(** The provisional identifier [createTask] assigns when it starts in [w]:
    [localId] of the first id it generates. *)
Definition assigned_id (e : Env) (w : World) : number :=
  match generateId e w with
  | (Ok generated, _) => localId generated
  | (Throw _, _) => None
  end.

(** ** Requests *)

(** From [w] to [w'] the request history only grew, every added request
    carries the session token, and none was added without a token. *)
Definition sends (e : Env) (w w' : World) : Prop :=
  exists issued,
    requests w' = requests w ++ issued /\
    Forall (fun r => bearer r = default "" (getToken e)) issued /\
    (truthy (getToken e) = false -> issued = []).

(** ** The task list screen (TasksScreen) and the task card (TaskCard) *)

(** Truthiness of an optional boolean field. *)
Definition is_set (b : option bool) : bool :=
  match b with
  | Some true => true
  | _ => false
  end.

(** [a >= b] on two dates: on their time values, false when either is
    invalid. *)
Definition date_ge (a b : Date) : bool :=
  match a, b with
  | Some x, Some y => y <=? x
  | _, _ => false
  end.

(** [a > b] on two dates. *)
Definition date_gt (a b : Date) : bool :=
  match a, b with
  | Some x, Some y => y <? x
  | _, _ => false
  end.

(** [task.dueDate || (task.due_date ? new Date(task.due_date) : null)]. *)
Definition due_date_of (parse : string -> number) (task : Task) : option Date :=
  match dueDate task with
  | Some d => Some d
  | None => date_if_truthy parse (due_date task)
  end.

Module TasksScreen.

(** The [filter] state of the screen. *)
Inductive Filter := all | upcoming | past.

Definition filter_name (f : Filter) : string :=
  match f with
  | all => "all"
  | upcoming => "upcoming"
  | past => "past"
  end.

(** [getTaskStatus(task)], the clock reading [now].  [d.setHours(0, 0, 0, 0)]
    moves [d] to the local midnight of its day. *)
Definition getTaskStatus (parse : string -> number) (offset now : Z) (task : Task) : string :=
  if is_set (completed task) then "completed" else
  let today := local_midnight offset (Some now) in
  match due_date_of parse task with
  | None => "upcoming"
  | Some taskDate =>
      let taskDay := local_midnight offset taskDate in
      if date_ge taskDay today then "upcoming" else "past"
  end.

Definition filteredTasks (parse : string -> number) (offset now : Z)
    (filter : Filter) (tasks : list Task) : list Task :=
  List.filter
    (fun task =>
       if is_set (completed task) then false
       else if String.eqb (filter_name filter) "all" then true
       else String.eqb (getTaskStatus parse offset now task) (filter_name filter))
    tasks.

Definition upcomingCount (parse : string -> number) (offset now : Z)
    (tasks : list Task) : nat :=
  length (List.filter
            (fun t => negb (is_set (completed t))
                      && String.eqb (getTaskStatus parse offset now t) "upcoming")
            tasks).

Definition pastCount (parse : string -> number) (offset now : Z)
    (tasks : list Task) : nat :=
  length (List.filter
            (fun t => negb (is_set (completed t))
                      && String.eqb (getTaskStatus parse offset now t) "past")
            tasks).

Definition totalActiveCount (parse : string -> number) (offset now : Z)
    (tasks : list Task) : nat :=
  (upcomingCount parse offset now tasks + pastCount parse offset now tasks)%nat.

(** [tasks.some(t => t.needsSync || t.isLocal)]. *)
Definition hasOfflineChanges (tasks : list Task) : bool :=
  existsb (fun t => is_set (needsSync t) || is_set (isLocal t)) tasks.

(** [loadTasks], from the list [shown] so far: the list shown afterwards
    and the alert raised, if any. *)
Definition loadTasks (shown : list Task) : M (list Task * option string) :=
  try_catch
    (let* fetchedTasks := fetchTasks in ret (fetchedTasks, None))
    (fun _ => ret (shown, Some "Failed to load tasks. Please try again.")).

(** [handleToggleComplete(taskId, completed)]: the list shown afterwards
    and the alert raised, if any. *)
Definition handleToggleComplete (id : number) (done : bool) (shown : list Task)
    : M (list Task * option string) :=
  try_catch
    (let* _ := updateTask id (mkUpdateTaskData None (Some done) None) in
     loadTasks shown)
    (fun _ => ret (shown, Some "Failed to update task. Please try again.")).

End TasksScreen.

Module TaskCard.

(** [getTaskStatus()] of the card, for its [task]. *)
Definition getTaskStatus (parse : string -> number) (offset now : Z) (task : Task) : string :=
  if is_set (completed task) then "completed" else
  let today := local_midnight offset (Some now) in
  match due_date_of parse task with
  | None => "upcoming"
  | Some taskDate =>
      let taskDay := local_midnight offset taskDate in
      if date_ge taskDay today then "upcoming" else "past"
  end.

Definition isOverdue (parse : string -> number) (offset now : Z) (task : Task) : bool :=
  negb (is_set (completed task))
  && String.eqb (getTaskStatus parse offset now task) "past".

Definition getStatusColor (parse : string -> number) (offset now : Z) (task : Task) : string :=
  if String.eqb (getTaskStatus parse offset now task) "past" then "#ef4444"
  else "#3b82f6".

End TaskCard.

(** ** The session service (authService) *)

Module AuthService.

(** [interface User]. *)
Record User := mkUser {
  id : string;
  username : string;
  name : string;
}.

(** [interface LoginCredentials]. *)
Record LoginCredentials := mkLoginCredentials {
  login_username : string;
  login_password : string;
}.

(** A decoded [AuthResponse]: [status_code], and [data.access_token] when
    there is a [data]. *)
Record AuthResponse := mkAuthResponse {
  status_code : Z;
  access_token : option string;
}.

(** What the login request comes to: [fetch] rejects with a [TypeError]
    carrying a message, or resolves with [response.ok] and the outcome of
    [response.json()]. *)
Inductive LoginOutcome :=
| Rejected (message : string)
| Resolved (ok : bool) (json : option AuthResponse).

(** The two AsyncStorage records of the session. *)
Record Session := mkSession {
  auth_token : option string;
  user_data : option User;
}.

(** What can be thrown inside the [try] of [login]. *)
Inductive Thrown :=
| AnError (message : string)
| ATypeError (message : string)
| ASyntaxError.

(** [s.includes(pattern)]. *)
Definition includes (pattern s : string) : bool :=
  bool_decide (is_Some (String.index 0 pattern s)).

(** The [try] block of [login], up to the two writes. *)
Definition login_attempt (credentials : LoginCredentials) (o : LoginOutcome)
    : Thrown + (string * User) :=
  match o with
  | Rejected message => inl (ATypeError message)
  | Resolved false _ => inl (AnError "Login failed")
  | Resolved true None => inl ASyntaxError
  | Resolved true (Some data) =>
      if negb (status_code data =? 200) then inl (AnError "Login failed")
      else match access_token data with
           | None => inl (ATypeError "Cannot read property 'access_token' of undefined")
           | Some token =>
               inr (token, mkUser "1" (login_username credentials)
                                  (login_username credentials))
           end
  end.

(** The [catch] block of [login]: the error thrown to the caller. *)
Definition login_error (error : Thrown) : Error :=
  match error with
  | ATypeError message =>
      if includes "Network request failed" message
      then JsError "Network connection failed. Please check your internet connection."
      else JsError "Invalid username or password"
  | ASyntaxError => JsError "Server response error. Please try again."
  | AnError _ => JsError "Invalid username or password"
  end.

Definition login (credentials : LoginCredentials) (o : LoginOutcome) (s : Session)
    : Result (string * User) * Session :=
  match login_attempt credentials o with
  | inr (token, user) => (Ok (token, user), mkSession (Some token) (Some user))
  | inl error => (Throw (login_error error), s)
  end.

(** [logout]: whether the logout request was sent (with which token), and
    the session left; the answer to the request is not looked at. *)
Definition logout (s : Session) : option string * Session :=
  (if truthy (auth_token s) then auth_token s else None, mkSession None None).

Definition getToken (s : Session) : option string := auth_token s.

Definition getCurrentUser (s : Session) : option User := user_data s.

(** [token !== null]. *)
Definition isAuthenticated (s : Session) : bool :=
  bool_decide (is_Some (getToken s)).

End AuthService.

(** The environment of the task service when the session collaborator is
    [AuthService] over the session [s]. *)
Definition with_session (s : AuthService.Session) (e : Env) : Env :=
  mkEnv (AuthService.getToken s)
        (match AuthService.getCurrentUser s with
         | Some u => Some (mkAuthUser (AuthService.id u) (AuthService.username u))
         | None => None
         end)
        (replies e) (time_at e) (random_at e) (Date_parse e) (utc_offset e).

(** ** The notification service (notificationService) *)

Module NotificationService.

(** The content of a scheduled notification: [title], [body] and
    [data.timestamp] (the time value of the date written there). *)
Record Notification := mkNotification {
  content_title : string;
  content_body : string;
  content_timestamp : Z;
}.

(** The platform: [Platform.OS], whether [scheduleNotificationAsync]
    rejects, the id it returns otherwise, and whether [setBadgeCountAsync]
    rejects. *)
Record Device := mkDevice {
  OS : string;
  schedule_rejects : bool;
  notification_id : string;
  badge_rejects : bool;
}.

(** The service's [lastNotificationCheck], with what the platform holds:
    the notifications scheduled so far and the badge count. *)
Record State := mkState {
  lastNotificationCheck : option Date;
  scheduled : list Notification;
  badge : option Z;
}.

Definition set_badge (n : Z) (dev : Device) (s : State) : State :=
  if badge_rejects dev then s
  else mkState (lastNotificationCheck s) (scheduled s) (Some n).

Definition quote : string := String "034" "".

(** [`${x}`] for an optional string. *)
Definition show (x : option string) : string :=
  match x with
  | Some s => s
  | None => "undefined"
  end.

Definition due_title (dueTasks : list Task) : string :=
  if (length dueTasks =? 1)%nat then "📅 Task Due Today!"
  else "📅 " +:+ Js.Z_to_string (Z.of_nat (length dueTasks)) +:+ " Tasks Due Today!".

Definition due_body (dueTasks : list Task) : string :=
  match dueTasks with
  | [first] => quote +:+ show (title first) +:+ quote +:+ " is due today"
  | _ => "You have " +:+ Js.Z_to_string (Z.of_nat (length dueTasks))
         +:+ " tasks due today."
  end.

(** [scheduleImmediateNotification(title, body)]: one reading of the clock
    for the content, a second one for the mock id when scheduling fails. *)
Definition scheduleImmediateNotification (dev : Device) (e : Env)
    (title body : string) (ws : World * State) : string * (World * State) :=
  let '(w, s) := ws in
  let now := time_at e (clock_reads w) in
  let w1 := tick_clock w in
  if schedule_rejects dev then
    ("mock_notification_id_" +:+ Js.Z_to_string (time_at e (clock_reads w1)),
     (tick_clock w1, s))
  else
    (notification_id dev,
     (w1, mkState (lastNotificationCheck s)
                  (scheduled s ++ [mkNotification title body now])
                  (badge s))).

Definition checkDueTasksAndNotify (dev : Device) (e : Env)
    (ws : World * State) : World * State :=
  let '(w, s) := ws in
  match getDueTasks e w with
  | (Ok dueTasks, w1) =>
      if (0 <? length dueTasks)%nat then
        let '(_, (w2, s2)) :=
          scheduleImmediateNotification dev e (due_title dueTasks)
                                        (due_body dueTasks) (w1, s) in
        if String.eqb (OS dev) "ios"
        then (w2, set_badge (Z.of_nat (length dueTasks)) dev s2)
        else (w2, s2)
      else if String.eqb (OS dev) "ios" then (w1, set_badge 0 dev s)
      else (w1, s)
  | (Throw _, w1) => (w1, s)
  end.

(** Five minutes, in milliseconds. *)
Definition cooldown : Z := 5 * 60 * 1000.

Definition handleAppBecameActive (dev : Device) (e : Env)
    (ws : World * State) : World * State :=
  let '(w, s) := ws in
  let now := time_at e (clock_reads w) in
  let w1 := tick_clock w in
  let fiveMinutesAgo := now - cooldown in
  match lastNotificationCheck s with
  | Some last =>
      if date_gt last (Some fiveMinutesAgo) then (w1, s)
      else checkDueTasksAndNotify dev e
             (w1, mkState (Some (Some now)) (scheduled s) (badge s))
  | None =>
      checkDueTasksAndNotify dev e
        (w1, mkState (Some (Some now)) (scheduled s) (badge s))
  end.

Definition forceCheckDueTasks (dev : Device) (e : Env)
    (ws : World * State) : World * State :=
  let '(w, s) := ws in
  checkDueTasksAndNotify dev e (w, mkState None (scheduled s) (badge s)).

End NotificationService.

(** ** The daily reminder (notificationService) *)

Module DailyCheck.

(** The [trigger] of a scheduled notification. *)
Inductive Trigger :=
| DATE (date : Date)
| CALENDAR (hour minute : Z) (repeats : bool).

(** A notification waiting for its trigger. *)
Record Reminder := mkReminder {
  reminder_title : string;
  reminder_body : string;
  trigger : Trigger;
}.

(** The platform: [Platform.OS], and whether
    [cancelAllScheduledNotificationsAsync] and [scheduleNotificationAsync]
    reject. *)
Record Platform := mkPlatform {
  OS : string;
  cancel_rejects : bool;
  schedule_rejects : bool;
}.

(** [cancelAllNotifications()], on the notifications waiting. *)
Definition cancelAllNotifications (p : Platform) (pending : list Reminder)
    : list Reminder :=
  if cancel_rejects p then pending else [].

(** The time zone of the device, as the two conversions the language
    defines: [LocalTime z t] is the wall-clock reading, in milliseconds, at
    the instant [t], and [UTC z t] the instant of the wall-clock reading
    [t].  Both follow the rules of the zone, daylight saving included. *)
Record Zone := mkZone {
  LocalTime : Z -> Z;
  UTC : Z -> Z;
}.

(** A zone that keeps one offset from UTC. *)
Definition fixed_zone (offset : Z) : Zone :=
  mkZone (fun t => t + offset) (fun t => t - offset).

(** [d.setDate(d.getDate() + 1)]: the same wall-clock time on the next
    calendar day. *)
Definition setDate_next (z : Zone) (t : Z) : Z :=
  UTC z (LocalTime z t + msPerDay).

(** [d.setHours(9, 0, 0, 0)]: 9:00 on the calendar day of [d]. *)
Definition setHours_9 (z : Zone) (t : Z) : Z :=
  UTC z (LocalTime z t / msPerDay * msPerDay + 9 * 3600 * 1000).

(** [tomorrow.setDate(tomorrow.getDate() + 1); tomorrow.setHours(9, 0, 0, 0)]
    from [now]. *)
Definition tomorrow_at_nine (z : Zone) (now : Z) : Date :=
  Some (setHours_9 z (setDate_next z now)).

Definition good_morning (t : Trigger) : Reminder :=
  mkReminder "🌅 Good Morning!" "Don't forget to check your tasks for today!" t.

(** [scheduleDailyTaskCheck()], the clock reading [now]: the notifications
    waiting afterwards. *)
Definition scheduleDailyTaskCheck (p : Platform) (z : Zone) (now : Z)
    (pending : list Reminder) : list Reminder :=
  let pending := cancelAllNotifications p pending in
  let tomorrow := tomorrow_at_nine z now in
  if schedule_rejects p then pending
  else if String.eqb (OS p) "android"
       then pending ++ [good_morning (DATE tomorrow)]
       else pending ++ [good_morning (CALENDAR 9 0 true)].

End DailyCheck.

(** ** Sample inputs *)

Definition admin : AuthUser := mkAuthUser "1" "admin".

(** [new Date(s)] on the two date-only strings the samples use (midnight
    UTC of that day); any other string here is an Invalid Date. *)
Definition sample_parse (s : string) : number :=
  if String.eqb s "2024-01-15" then Some 1705276800000
  else if String.eqb s "2024-01-16" then Some 1705363200000
  else None.

(** Logged in, and every remote call rejected by the network. *)
Definition offline : Env :=
  mkEnv (Some "jwt") (Some admin) (fun _ => Rejected)
        (fun _ => 1700000000000) (fun _ => "k3j2h1g0f") sample_parse 0.

Definition pay_rent : CreateTaskData :=
  mkCreateTaskData "Pay rent" (Some "2024-01-15").

(** The same, 100 seconds later. *)
Definition offline_later : Env :=
  mkEnv (Some "jwt") (Some admin) (fun _ => Rejected)
        (fun _ => 1700000100000) (fun _ => "k3j2h1g0f") sample_parse 0.

(** Nobody logged in. *)
Definition logged_out : Env :=
  mkEnv None None (fun _ => Rejected)
        (fun _ => 1700000000000) (fun _ => "k3j2h1g0f") sample_parse 0.

Definition mark_completed : UpdateTaskData :=
  mkUpdateTaskData None (Some true) None.

(** One task created while offline. *)
Definition one_local_task : World := perform (CreateTask pay_rent) offline initial.

(** That task then completed, still offline: a [create] and an [update]
    are queued, in that order. *)
Definition created_then_updated : World :=
  perform (UpdateTask (Some 17000000) mark_completed) offline one_local_task.

Definition call_bank : CreateTaskData :=
  mkCreateTaskData "Call the bank" (Some "2024-01-16").

(** Two tasks created offline, due on 15 and on 16 January 2024. *)
Definition two_tasks : World := perform (CreateTask call_bank) offline one_local_task.

(** 15 January 2024, 10:00 UTC, local time being UTC. *)
Definition morning_of_15 : Env :=
  mkEnv (Some "jwt") (Some admin) (fun _ => Rejected)
        (fun _ => 1705312800000) (fun _ => "k3j2h1g0f") sample_parse 0.

(** A server that answers every request with one record carrying
    [isLocal: true]. *)
Definition echoing_server : Env :=
  mkEnv (Some "jwt") (Some admin)
        (fun _ => Resolved (mkResponse true 200 (Some (mkApiResponse 200 (TaskList
           [mkTask (Some 7) (Some "Echo") None None None None None (Some true) None])))))
        (fun _ => 1700000000000) (fun _ => "k3j2h1g0f") sample_parse 0.

(** The same state after a sync attempted while still offline. *)
Definition after_offline_sync : World := perform SyncOfflineChanges offline one_local_task.

(** A record as the server sends it. *)
Definition server_rent : Task :=
  mkTask (Some 41) (Some "Pay rent") None (Some "2024-01-15") None
         (Some (mkUser (Some 1) "admin")) None None None.

(** A 2xx answer with status code 200 and the given [data]. *)
Definition answer (d : ResponseData) : FetchOutcome :=
  Resolved (mkResponse true 200 (Some (mkApiResponse 200 d))).

(** Logged in, the server giving the listed answers in turn, and the
    network rejecting every later request. *)
Definition online (answers : list FetchOutcome) : Env :=
  mkEnv (Some "jwt") (Some admin) (fun n => nth n answers Rejected)
        (fun _ => 1700000000000) (fun _ => "k3j2h1g0f") sample_parse 0.

Definition someone : AuthService.LoginCredentials :=
  AuthService.mkLoginCredentials "carol" "secret".

(** 15 January 2024, 17:00 UTC, on a device five hours behind UTC (New York
    in winter): its local time is 12:00 on 15 January. *)
Definition west_of_utc : Env :=
  mkEnv (Some "jwt") (Some admin) (fun _ => Rejected)
        (fun _ => 1705338000000) (fun _ => "k3j2h1g0f") sample_parse (-18000000).

(** New York around the end of daylight saving in 2024: four hours behind
    UTC until 3 November, 06:00 UTC (2:00 on the wall clock), five hours
    behind from then on; a wall-clock reading that occurs twice is taken
    with the earlier offset. *)
Definition new_york_autumn_2024 : DailyCheck.Zone :=
  DailyCheck.mkZone
    (fun t => if t <? 1730613600000 then t - 14400000 else t - 18000000)
    (fun t => if t <? 1730599200000 then t + 14400000 else t + 18000000).

(** * Properties *)

(** ** Running the primitives *)

Ltac unfold_monad :=
  unfold bind, ret, throw, try_catch, ask, get, modify in *.

Lemma getStoredTasks_run e w : getStoredTasks e w = (Ok (stored_tasks e w), w).
Proof.
  unfold getStoredTasks, stored_tasks. unfold_monad.
  destruct (tasks_item w); reflexivity.
Qed.

Lemma getOfflineActions_run e w : getOfflineActions e w = (Ok (queue w), w).
Proof.
  unfold getOfflineActions, queue. unfold_monad.
  destruct (actions_item w); reflexivity.
Qed.

Lemma storeTasks_run tasks e w :
  storeTasks tasks e w = (Ok tt, set_tasks_item (Some tasks) w).
Proof. reflexivity. Qed.

Lemma storeOfflineAction_run a e w :
  storeOfflineAction a e w = (Ok tt, set_actions_item (Some (queue w ++ [a])) w).
Proof.
  unfold storeOfflineAction, bind. rewrite getOfflineActions_run. reflexivity.
Qed.

Lemma generateId_run e w :
  generateId e w =
  (Ok ("local_" +:+ Js.Z_to_string (time_at e (clock_reads w)) +:+ "_"
       +:+ random_at e (random_reads w)),
   tick_random (tick_clock w)).
Proof. reflexivity. Qed.

Lemma require_token_run e w :
  require_token e w =
  if truthy (getToken e) then (Ok (default "" (getToken e)), w)
  else (Throw (JsError "No auth token"), w).
Proof.
  unfold require_token. unfold_monad. destruct (truthy (getToken e)); reflexivity.
Qed.

Lemma fetch_run r e w :
  fetch r e w =
  match next_reply e w with
  | Rejected => (Throw NetworkRequestFailed, push_request r w)
  | Resolved resp => (Ok resp, push_request r w)
  end.
Proof.
  unfold fetch, next_reply. unfold_monad. cbn.
  destruct (replies e (length (requests w))); reflexivity.
Qed.

#[local] Arguments getStoredTasks : simpl never.
#[local] Arguments getOfflineActions : simpl never.
#[local] Arguments storeOfflineAction : simpl never.
#[local] Arguments generateId : simpl never.
#[local] Arguments require_token : simpl never.
#[local] Arguments fetch : simpl never.

(** The remote read, when it throws, has only recorded its request. *)
Lemma fetchTasks_remote_throws e w err w1 :
  fetchTasks_remote e w = (Throw err, w1) ->
  tasks_item w1 = tasks_item w /\ actions_item w1 = actions_item w /\
  clock_reads w1 = clock_reads w /\ random_reads w1 = random_reads w.
Proof.
  unfold fetchTasks_remote, bind. rewrite require_token_run.
  destruct (truthy (getToken e)); [| intros [= <- <-]; auto].
  rewrite fetch_run.
  destruct (next_reply e w) as [| [[] s [[c d] |]]]; cbn;
    try (intros [= <- <-]; cbn; auto).
  destruct (c =? 200); cbn; try (intros [= <- <-]; cbn; auto).
  destruct d; cbn; intros [= <- <-]; cbn; auto.
Qed.

(** Every listed failure makes the remote read throw. *)
Lemma get_fails_throws e w :
  get_fails e w -> exists err w1, fetchTasks_remote e w = (Throw err, w1).
Proof.
  intros F. unfold fetchTasks_remote, bind. rewrite require_token_run.
  destruct (truthy (getToken e)) eqn:T; [| eauto].
  rewrite fetch_run.
  destruct F as [F | F | r F O | r F J | r b F J S | r b F J D];
    try congruence; rewrite F; [eauto | | |..].
  - rewrite O. cbn. eauto.
  - destruct (ok r); cbn; [| eauto].
    unfold response_json. rewrite J. cbn. eauto.
  - destruct (ok r); cbn; [| eauto].
    unfold response_json. rewrite J. cbn.
    destruct (Z.eqb_spec (status_code b) 200); [contradiction |]. cbn. eauto.
  - destruct (ok r); cbn; [| eauto].
    unfold response_json. rewrite J. cbn.
    destruct (status_code b =? 200); cbn; [| eauto].
    destruct (response_data b) eqn:R; cbn; eauto.
    exfalso. eapply D. reflexivity.
Qed.

(** [fetchTasks] always returns, and never touches the queue. *)
Lemma fetchTasks_total e w :
  exists l w', fetchTasks e w = (Ok l, w') /\ actions_item w' = actions_item w.
Proof.
  unfold fetchTasks, try_catch.
  destruct (fetchTasks_remote e w) as [[l | err] w1] eqn:R.
  - exists l, w1. split; [reflexivity |].
    revert R. unfold fetchTasks_remote, bind. rewrite require_token_run.
    destruct (truthy (getToken e)); [| intros [=]].
    rewrite fetch_run.
    destruct (next_reply e w) as [| [[] s [[c d] |]]]; cbn; try solve [intros [=]].
    destruct (c =? 200); cbn; try solve [intros [=]].
    destruct d; cbn; intros [= <- <-]; reflexivity.
  - apply fetchTasks_remote_throws in R as (HT & HA & _).
    rewrite getStoredTasks_run. eauto.
Qed.

(** ** The operations *)


(** C8. Without a current user [createTask] throws the authentication
    error to its caller, before anything is generated, requested or stored:
    the state is the one it started from. *)
Theorem createTask_requires_user e w taskData :
  getCurrentUser e = None ->
  createTask taskData e w = (Throw AuthenticationRequired, w) /\
  tasks_item (snd (createTask taskData e w)) = tasks_item w /\
  actions_item (snd (createTask taskData e w)) = actions_item w.
Proof.
  intros U. unfold createTask, bind, ask. rewrite U. cbn. auto.
Qed.

Lemma findIndex_absent taskId tasks :
  (forall t, t ∈ tasks -> strict_eq (task_id t) taskId = false) ->
  findIndex taskId tasks = None.
Proof.
  intros A. unfold findIndex. apply list_find_None, Forall_forall.
  intros t Ht P. rewrite (A t Ht) in P. exact P.
Qed.

(** C7. When no stored task has the identifier, [updateTask] and
    [deleteTask] both throw the not-found error and leave the state (the
    task collection, the queue, the request history) exactly as it was. *)
Theorem update_delete_absent_not_found e w taskId updateData :
  (forall t, t ∈ stored_tasks e w -> strict_eq (task_id t) taskId = false) ->
  updateTask taskId updateData e w = (Throw TaskNotFound, w) /\
  deleteTask taskId e w = (Throw TaskNotFound, w).
Proof.
  intros A. apply findIndex_absent in A.
  unfold updateTask, deleteTask, bind.
  rewrite getStoredTasks_run, A. split; reflexivity.
Qed.

(** The drain loop: one request per queued action, in queue order, whatever
    the answers; nothing stored changes and nothing is thrown. *)
Lemma drain_loop token actions : forall e w,
  exists w',
    for_each actions
      (fun action => try_catch (sync_action token action) (fun _ => ret tt)) e w
    = (Ok tt, w') /\
    requests w' = requests w ++ map (sync_request token) actions /\
    tasks_item w' = tasks_item w /\
    actions_item w' = actions_item w.
Proof.
  induction actions as [| a rest IH]; intros e w; cbn.
  - exists w. rewrite app_nil_r. auto.
  - unfold bind at 1. unfold try_catch at 1. unfold sync_action at 1.
    unfold bind at 1. rewrite fetch_run.
    set (w1 := push_request (sync_request token a) w).
    assert (S : exists r,
      match
        match next_reply e w with
        | Rejected => (Throw NetworkRequestFailed, w1)
        | Resolved resp => (Ok resp, w1)
        end
      with
      | (Ok a0, w') =>
          (if ok a0 then let* _ := response_json a0 in ret tt else ret tt) e w'
      | (Throw err, w') => (Throw err, w')
      end = (r, w1)).
    { destruct (next_reply e w) as [| [[] s [b |]]]; cbn; eauto. }
    destruct S as [r ->].
    destruct (IH e w1) as (w' & R & HR & HT & HA).
    exists w'. split; [| split; [| split]].
    + destruct r; cbn; exact R.
    + rewrite HR. subst w1. cbn. rewrite <- app_assoc. reflexivity.
    + rewrite HT. reflexivity.
    + rewrite HA. reflexivity.
Qed.

Lemma fetchTasks_requests e w :
  truthy (getToken e) = true ->
  requests (snd (fetchTasks e w)) =
  requests w ++ [mkRequest GET apiUrl (default "" (getToken e)) None].
Proof.
  intros T. unfold fetchTasks, try_catch, fetchTasks_remote, bind.
  rewrite require_token_run, T, fetch_run.
  destruct (next_reply e w) as [| [[] s [[c d] |]]]; cbn;
    rewrite ?getStoredTasks_run; try reflexivity.
  destruct (c =? 200); cbn; rewrite ?getStoredTasks_run; try reflexivity.
  destruct d; cbn; rewrite ?getStoredTasks_run; reflexivity.
Qed.

(** What a run of [syncOfflineChanges] that does not return early does. *)
Lemma syncOfflineChanges_run e w :
  truthy (getToken e) = true -> queue w <> [] ->
  exists w',
    syncOfflineChanges e w = (Ok tt, w') /\
    actions_item w' = None /\
    requests w' =
      requests w ++ map (sync_request (default "" (getToken e))) (queue w)
      ++ [mkRequest GET apiUrl (default "" (getToken e)) None].
Proof.
  intros T Q. unfold syncOfflineChanges. unfold bind at 1.
  rewrite getOfflineActions_run. unfold bind at 1, ask at 1.
  rewrite T. cbn [negb orb].
  destruct (queue w) as [| a0 q0] eqn:EQ; [contradiction |].
  cbn [length Nat.eqb]. unfold bind at 1.
  destruct (drain_loop (default "" (getToken e)) (a0 :: q0) e w)
    as (w1 & R & HR & HT & HA).
  rewrite R. unfold bind at 1, clearOfflineActions, modify. unfold bind at 1.
  destruct (fetchTasks_total e (set_actions_item None w1)) as (l & w2 & F & FA).
  pose proof (fetchTasks_requests e (set_actions_item None w1) T) as FR.
  rewrite F in *. cbn in FR. exists w2. split; [reflexivity |]. split.
  - rewrite FA. reflexivity.
  - rewrite FR. cbn [set_actions_item requests]. rewrite HR, <- app_assoc.
    reflexivity.
Qed.

(** C1. With a session token and a queue that is not empty,
    [syncOfflineChanges] returns normally and leaves the queue empty,
    whatever the oracle answers to each replayed action. *)
Theorem sync_empties_queue e w :
  truthy (getToken e) = true -> queue w <> [] ->
  exists w', syncOfflineChanges e w = (Ok tt, w') /\ queue w' = [].
Proof.
  intros T Q. destruct (syncOfflineChanges_run e w T Q) as (w' & R & A & _).
  exists w'. split; [exact R |]. unfold queue. rewrite A. reflexivity.
Qed.

(** C5. [storeOfflineAction] appends at the end of the queue, and
    [syncOfflineChanges] issues one request per queued action in queue
    order, then the refresh; so the [POST] of a queued create precedes the
    [PUT] of an update queued after it. *)
Theorem sync_replays_in_insertion_order e w :
  truthy (getToken e) = true -> queue w <> [] ->
  let token := default "" (getToken e) in
  let issued := requests (snd (syncOfflineChanges e w)) in
  (forall a e0, queue (snd (storeOfflineAction a e0 w)) = queue w ++ [a]) /\
  issued = requests w ++ map (sync_request token) (queue w)
           ++ [mkRequest GET apiUrl token None] /\
  (forall before A1 between A2 after,
     queue w = before ++ A1 :: between ++ A2 :: after ->
     type A1 = create -> type A2 = update ->
     exists pre mid post,
       issued = pre ++ mkRequest POST apiUrl token (data A1)
                :: mid ++ mkRequest PUT (task_url (taskId A2)) token (data A2)
                :: post /\
       length pre = (length (requests w) + length before)%nat /\
       length mid = length between).
Proof.
  intros T Q token issued.
  destruct (syncOfflineChanges_run e w T Q) as (w' & R & _ & HR).
  assert (I : issued = requests w ++ map (sync_request token) (queue w)
                       ++ [mkRequest GET apiUrl token None]).
  { subst issued. rewrite R. exact HR. }
  split; [| split].
  - intros a e0. rewrite storeOfflineAction_run. reflexivity.
  - exact I.
  - intros before A1 between A2 after EQ C U.
    exists (requests w ++ map (sync_request token) before),
           (map (sync_request token) between),
           (map (sync_request token) after ++ [mkRequest GET apiUrl token None]).
    split; [| split].
    + rewrite I, EQ. rewrite map_app. cbn [map]. rewrite map_app. cbn [map].
      unfold sync_request at 2 4. rewrite C, U.
      rewrite <- !app_assoc. cbn. rewrite <- !app_assoc. reflexivity.
    + rewrite length_app, length_map. reflexivity.
    + apply length_map.
Qed.

Lemma date_if_truthy_or_null parse s :
  date_if_truthy parse (or_null s) = date_if_truthy parse s.
Proof. destruct s as [[| c r] |]; reflexivity. Qed.

Lemma revive_idempotent parse t : revive parse (revive parse t) = revive parse t.
Proof. reflexivity. Qed.

Lemma stored_tasks_set_tasks e w l :
  stored_tasks e (set_tasks_item (Some l) w) = map (revive (Date_parse e)) l.
Proof. reflexivity. Qed.

Lemma revive_stored_tasks e w :
  map (revive (Date_parse e)) (stored_tasks e w) = stored_tasks e w.
Proof.
  unfold stored_tasks. rewrite map_map. apply map_ext. intros t.
  apply revive_idempotent.
Qed.

(** The remote delete, when it throws, has only recorded its request. *)
Lemma deleteTask_remote_throws tasks i taskId e w err w1 :
  deleteTask_remote tasks i taskId e w = (Throw err, w1) ->
  tasks_item w1 = tasks_item w /\ actions_item w1 = actions_item w.
Proof.
  unfold deleteTask_remote, bind. rewrite require_token_run.
  destruct (truthy (getToken e)); [| intros [= <- <-]; auto].
  rewrite fetch_run.
  destruct (next_reply e w) as [| [[] s [[c d] |]]]; cbn;
    try solve [intros [= <- <-]; cbn; auto].
  destruct (c =? 200); cbn; intros [= <- <-]; cbn; auto.
Qed.

(** The usual remote failures (no token, a network error, a non-success
    status, an unparsable body, an error status code) all make the remote
    delete throw. *)
Lemma deleteTask_remote_fails tasks i tid e w :
  truthy (getToken e) = false \/ get_succeeds_status 200 (next_reply e w) = false ->
  exists err w1, deleteTask_remote tasks i tid e w = (Throw err, w1).
Proof.
  intros F. unfold deleteTask_remote, bind. rewrite require_token_run.
  destruct (truthy (getToken e)); [| eauto].
  destruct F as [F | F]; [discriminate F |]. rewrite fetch_run.
  destruct (next_reply e w) as [| [[] s [[c d] |]]]; cbn in *; eauto.
  rewrite F. cbn. eauto.
Qed.

(** C6. When the task is stored and the remote delete fails, whatever the
    reason, [deleteTask] returns normally, the task found is gone from the
    stored collection (the other tasks stay, in order), and one [delete]
    action for the identifier is appended to the queue. *)
Theorem deleteTask_offline_removes_and_queues e w tid i t err w1 :
  findIndex tid (stored_tasks e w) = Some (i, t) ->
  deleteTask_remote (stored_tasks e w) i tid e w = (Throw err, w1) ->
  exists w' a before after,
    deleteTask tid e w = (Ok tt, w') /\
    stored_tasks e w = before ++ t :: after /\
    strict_eq (task_id t) tid = true /\
    (forall x, x ∈ before -> strict_eq (task_id x) tid = false) /\
    stored_tasks e w' = before ++ after /\
    queue w' = queue w ++ [a] /\
    type a = delete /\ taskId a = tid /\ data a = None.
Proof.
  intros F R.
  pose proof (deleteTask_remote_throws _ _ _ _ _ _ _ R) as (HT & HA).
  unfold deleteTask, bind. rewrite getStoredTasks_run, F.
  unfold try_catch. rewrite R.
  unfold deleteTask_offline, bind. rewrite storeTasks_run, generateId_run.
  cbn [Date_now bind ask get modify ret]. rewrite storeOfflineAction_run.
  apply list_find_Some in F as (L & P & B).
  eexists _, _, (take i (stored_tasks e w)), (drop (S i) (stored_tasks e w)).
  split; [reflexivity |].
  split; [symmetry; apply take_drop_middle, L |].
  split; [destruct (strict_eq (task_id t) tid); [reflexivity | contradiction] |].
  split.
  { intros x Hx. apply list_elem_of_lookup in Hx as (j & Hj).
    pose proof (lookup_lt_Some _ _ _ Hj) as Hlt.
    rewrite length_take in Hlt.
    rewrite lookup_take_lt in Hj by lia.
    specialize (B j x Hj ltac:(lia)).
    destruct (strict_eq (task_id x) tid); [exfalso; apply B; exact I | reflexivity]. }
  split.
  { unfold stored_tasks at 1. cbn [tasks_item set_actions_item set_tasks_item
      tick_random tick_clock default from_option].
    unfold splice1, id. rewrite delete_take_drop, map_app.
    rewrite <- firstn_map, <- skipn_map, revive_stored_tasks. reflexivity. }
  split.
  { unfold queue at 1 2. cbn. rewrite HA. reflexivity. }
  cbn. auto.
Qed.

#[local] Arguments fetchTasks : simpl never.

Lemma find_created_state d l e w :
  snd (find_created d l e w) = w.
Proof.
  unfold find_created. destruct l; [reflexivity |].
  destruct d; reflexivity.
Qed.

(** The remote create never touches the queue, whatever it returns. *)
Lemma createTask_remote_queue current taskData e w :
  actions_item (snd (createTask_remote current taskData e w)) = actions_item w.
Proof.
  unfold createTask_remote, bind. rewrite require_token_run.
  destruct (truthy (getToken e)); [| reflexivity].
  rewrite fetch_run.
  destruct (next_reply e w) as [| [[] s [[c d] |]]]; cbn; try reflexivity.
  destruct ((c =? 200) || (c =? 201)); [| reflexivity].
  unfold bind, try_catch.
  match goal with
  | |- context [fetchTasks e ?w0] =>
      destruct (fetchTasks_total e w0) as (l & w2 & F & FA); rewrite F
  end.
  pose proof (find_created_state d l e w2) as S.
  destruct (find_created d l e w2) as [[[found |] | err'] w3]; cbn in S; subst w3;
    cbn; try (rewrite FA; reflexivity);
    destruct d as [| [? ? ? ? ? [u |] ? ? ?] | l']; cbn; rewrite FA; reflexivity.
Qed.

(** The usual remote failures all make the remote create throw. *)
Lemma createTask_remote_fails current taskData e w :
  truthy (getToken e) = false \/
  (get_succeeds_status 200 (next_reply e w) = false /\
   get_succeeds_status 201 (next_reply e w) = false) ->
  exists err w1, createTask_remote current taskData e w = (Throw err, w1).
Proof.
  intros F. unfold createTask_remote, bind. rewrite require_token_run.
  destruct (truthy (getToken e)); [| eauto].
  destruct F as [F | [F1 F2]]; [discriminate F |]. rewrite fetch_run.
  destruct (next_reply e w) as [| [[] s [[c d] |]]]; cbn in *; eauto.
  rewrite F1, F2. cbn. eauto.
Qed.

(** C4. With a current user, when the remote create fails (its [try] block
    throws, for whatever reason), [createTask] returns the provisional task:
    it carries [isLocal] and [needsSync], it is in the stored collection
    afterwards, and the queue has grown by exactly one action, a [create]
    whose payload is the input and whose target is the provisional id. *)
Theorem createTask_offline_is_durable e w taskData current err w1 :
  getCurrentUser e = Some current ->
  createTask_remote current taskData e (tick_random (tick_clock w)) = (Throw err, w1) ->
  exists t w' a,
    createTask taskData e w = (Ok t, w') /\
    isLocal t = Some true /\ needsSync t = Some true /\
    t ∈ stored_tasks e w' /\
    queue w' = queue w ++ [a] /\
    type a = create /\ data a = Some (CreateData taskData) /\
    taskId a = task_id t.
Proof.
  intros U R.
  pose proof (createTask_remote_queue current taskData e (tick_random (tick_clock w)))
    as HA. rewrite R in HA. cbn in HA.
  unfold createTask. unfold bind at 1, ask at 1. rewrite U.
  unfold bind at 1. rewrite generateId_run. unfold try_catch. rewrite R.
  unfold createTask_offline, bind. rewrite getStoredTasks_run, storeTasks_run.
  rewrite generateId_run. cbn [Date_now bind ask get modify ret].
  rewrite storeOfflineAction_run.
  eexists _, _, _. split; [reflexivity |].
  split; [reflexivity |]. split; [reflexivity |]. split.
  { unfold stored_tasks at 1. cbn [tasks_item set_actions_item set_tasks_item
      tick_random tick_clock default from_option]. unfold id.
    rewrite map_app, revive_stored_tasks. apply elem_of_app. right.
    cbn [map]. unfold revive, provisional_task; cbn.
    rewrite date_if_truthy_or_null. apply list_elem_of_singleton. reflexivity. }
  split.
  { unfold queue at 1 2. cbn. rewrite HA. reflexivity. }
  cbn. auto.
Qed.

Lemma getDueTasks_run e w :
  getDueTasks e w =
  (Ok (List.filter
         (due_today (Date_parse e) (utc_offset e)
            (local_midnight (utc_offset e) (Some (time_at e (clock_reads w)))))
         (stored_tasks e w)),
   tick_clock w).
Proof.
  unfold getDueTasks, bind. rewrite getStoredTasks_run. reflexivity.
Qed.

(** Two instants have the same local midnight exactly when they fall on the
    same local calendar day. *)
Lemma same_midnight_same_day offset a b :
  local_midnight offset (Some a) = local_midnight offset (Some b)
  <-> local_day offset a = local_day offset b.
Proof.
  unfold local_midnight, local_day, msPerDay. split.
  - intros [= H]. lia.
  - intros ->. reflexivity.
Qed.

Lemma strict_eq_midnight offset a b :
  strict_eq (local_midnight offset (Some a)) (local_midnight offset (Some b)) = true
  <-> local_midnight offset (Some a) = local_midnight offset (Some b).
Proof.
  unfold strict_eq, local_midnight. rewrite Z.eqb_eq. split; congruence.
Qed.

(** On a task as the store returns it, the filter of [getDueTasks] decides
    the described condition. *)
Lemma due_today_spec parse offset now t :
  dueDate t = date_if_truthy parse (due_date t) ->
  due_today parse offset (local_midnight offset (Some now)) t = true
  <-> due_on_current_day offset now t.
Proof.
  intros V. unfold due_today, due_on_current_day.
  destruct (decide (completed t = Some false)) as [C | C].
  - rewrite bool_decide_true by exact C. cbn [negb].
    destruct (dueDate t) as [[d |] |] eqn:D.
    + rewrite bool_decide_true by eauto. cbn [negb andb].
      rewrite strict_eq_midnight. split.
      * intros S. split; [exact C |]. exists d. auto.
      * intros (_ & d' & [= <-] & S). exact S.
    + rewrite bool_decide_true by eauto. cbn. split; [discriminate |].
      intros (_ & d' & [=] & _).
    + rewrite bool_decide_false by (intros [x [=]]). cbn [negb andb].
      assert (F : truthy (due_date t) = false).
      { destruct (due_date t) as [[| c r] |]; [reflexivity | discriminate | reflexivity]. }
      rewrite F. cbn. split; [discriminate |]. intros (_ & d' & [=] & _).
  - rewrite bool_decide_false by exact C. cbn. split; [discriminate |].
    intros (C' & _). contradiction.
Qed.

Lemma stored_tasks_revived e w t :
  t ∈ stored_tasks e w ->
  dueDate t = date_if_truthy (Date_parse e) (due_date t).
Proof.
  unfold stored_tasks. intros H. apply list_elem_of_In, in_map_iff in H.
  destruct H as (t0 & <- & _). reflexivity.
Qed.

(** A due date given as a date-only string is read as midnight UTC of its
    day [k].  At or east of UTC that instant falls on the local day [k];
    west of UTC it falls on the local day before. *)
Lemma utc_midnight_local_day offset k :
  (0 <= offset < msPerDay -> local_day offset (k * msPerDay) = k) /\
  (- msPerDay <= offset < 0 -> local_day offset (k * msPerDay) = k - 1).
Proof.
  unfold local_day, msPerDay. split; intros H.
  - symmetry. apply Z.div_unique with offset; lia.
  - symmetry. apply Z.div_unique with (offset + 86400000); lia.
Qed.

(** What [getDueTasks] keeps, by the local calendar day of the due
    instant. *)
Lemma due_today_by_day parse offset now t :
  dueDate t = date_if_truthy parse (due_date t) ->
  due_today parse offset (local_midnight offset (Some now)) t = true
  <-> completed t = Some false /\
      exists s d, due_date t = Some s /\ s <> "" /\ parse s = Some d /\
                  local_day offset d = local_day offset now.
Proof.
  intros V. rewrite (due_today_spec parse offset now t V).
  unfold due_on_current_day. rewrite V. split.
  - intros (C & d & D & M). split; [exact C |].
    destruct (due_date t) as [[| c s] |]; try discriminate D.
    injection D as D. exists (String c s), d.
    split; [reflexivity |]. split; [discriminate |]. split; [exact D |].
    apply same_midnight_same_day, M.
  - intros (C & s & d & -> & N & P & L). split; [exact C |].
    exists d. split.
    + destruct s as [| c s]; [contradiction N; reflexivity |]. cbn. rewrite P.
      reflexivity.
    + apply same_midnight_same_day, L.
Qed.

(** X23. [getDueTasks] always returns, and what it returns is a selection of
    the stored tasks in their stored order: exactly those whose [completed]
    is [false] and whose [due_date] is a non-empty string that [new Date]
    reads as an instant of the current local calendar day.  A date-only due
    date, read as midnight UTC of its day [k], is therefore returned on the
    local day [k] at or east of UTC, and on the local day [k - 1], the day
    before it is due, west of UTC. *)
Theorem getDueTasks_by_local_day e w :
  let now := time_at e (clock_reads w) in
  let offset := utc_offset e in
  exists due,
    fst (getDueTasks e w) = Ok due /\
    (exists keep, due = List.filter keep (stored_tasks e w)) /\
    (forall t,
       t ∈ due <->
       t ∈ stored_tasks e w /\ completed t = Some false /\
       exists s d, due_date t = Some s /\ s <> "" /\ Date_parse e s = Some d /\
                   local_day offset d = local_day offset now) /\
    (forall t s k,
       t ∈ stored_tasks e w -> completed t = Some false ->
       due_date t = Some s -> s <> "" -> Date_parse e s = Some (k * msPerDay) ->
       (0 <= offset < msPerDay -> (t ∈ due <-> local_day offset now = k)) /\
       (- msPerDay <= offset < 0 -> (t ∈ due <-> local_day offset now = k - 1))).
Proof.
  intros now offset. rewrite getDueTasks_run. cbn [fst].
  eexists. split; [reflexivity |]. split; [eexists; reflexivity |].
  assert (Mem : forall t,
    t ∈ List.filter
          (due_today (Date_parse e) offset (local_midnight offset (Some now)))
          (stored_tasks e w) <->
    t ∈ stored_tasks e w /\ completed t = Some false /\
    exists s d, due_date t = Some s /\ s <> "" /\ Date_parse e s = Some d /\
                local_day offset d = local_day offset now).
  { intros t. rewrite list_elem_of_In, filter_In, <- list_elem_of_In.
    split.
    - intros [Ht Hd]. split; [exact Ht |].
      apply (due_today_by_day (Date_parse e) offset now t); [| exact Hd].
      apply (stored_tasks_revived e w t Ht).
    - intros [Ht Hd]. split; [exact Ht |].
      apply (due_today_by_day (Date_parse e) offset now t); [| exact Hd].
      apply (stored_tasks_revived e w t Ht). }
  split; [exact Mem |].
  intros t s k Ht C D N P.
  destruct (utc_midnight_local_day offset k) as [East West].
  split; intros O; (etransitivity; [apply Mem |]); split.
  - intros (_ & _ & s' & d & D' & _ & P' & L).
    rewrite D in D'. injection D' as <-. rewrite P in P'. injection P' as <-.
    rewrite <- L. apply East, O.
  - intros L. split; [exact Ht |]. split; [exact C |].
    exists s, (k * msPerDay). rewrite (East O). auto.
  - intros (_ & _ & s' & d & D' & _ & P' & L).
    rewrite D in D'. injection D' as <-. rewrite P in P'. injection P' as <-.
    rewrite <- L. apply West, O.
  - intros L. split; [exact Ht |]. split; [exact C |].
    exists s, (k * msPerDay). rewrite (West O). auto.
Qed.

(** C9. On a device five hours behind UTC, at 12:00 local time on 15 January
    2024, with two stored tasks that are not completed, due on 2024-01-15
    and on 2024-01-16, [getDueTasks] returns the task due on the 16th, the
    next day, and not the task due on the 15th, the current day: each
    date-only string is read as midnight UTC, which is 19:00 of the day
    before on that device, and the day is then taken in local time. *)
Theorem getDueTasks_west_of_utc_returns_tomorrow :
  map due_date (stored_tasks west_of_utc two_tasks)
  = [Some "2024-01-15"; Some "2024-01-16"] /\
  map completed (stored_tasks west_of_utc two_tasks) = [Some false; Some false] /\
  Date_parse west_of_utc "2024-01-15" = Some (19737 * msPerDay) /\
  Date_parse west_of_utc "2024-01-16" = Some (19738 * msPerDay) /\
  local_day (utc_offset west_of_utc) (time_at west_of_utc (clock_reads two_tasks))
  = 19737 /\
  exists t,
    fst (getDueTasks west_of_utc two_tasks) = Ok [t] /\
    title t = Some "Call the bank" /\ due_date t = Some "2024-01-16".
Proof.
  split; [reflexivity |]. split; [reflexivity |]. split; [reflexivity |].
  split; [reflexivity |]. split; [reflexivity |].
  eexists. split; [vm_compute; reflexivity |]. split; reflexivity.
Qed.

(** ** The invariant linking flags and queued actions *)

Section Covered.

Variable parse : string -> number.

Lemma pending_grows kind t q a : pending kind t q -> pending kind t (q ++ [a]).
Proof.
  intros (x & Hx & K & I). exists x. rewrite elem_of_app. auto.
Qed.

Lemma covered_queue_grows tasks q a : covered tasks q -> covered tasks (q ++ [a]).
Proof.
  intros C t Ht. destruct (C t Ht) as [L N].
  split; intros; apply pending_grows; auto.
Qed.

Lemma covered_unflagged tasks q : Forall unflagged tasks -> covered tasks q.
Proof.
  intros U t Ht. rewrite Forall_forall in U. destruct (U t Ht) as [L N].
  split; intros; contradiction.
Qed.

Lemma covered_nil q : covered [] q.
Proof. intros t Ht. apply elem_of_nil in Ht. contradiction. Qed.

Lemma covered_revive tasks q : covered tasks q -> covered (map (revive parse) tasks) q.
Proof.
  intros C t Ht. apply list_elem_of_In, in_map_iff in Ht.
  destruct Ht as (t0 & <- & Ht0). apply list_elem_of_In in Ht0.
  exact (C t0 Ht0).
Qed.

Lemma covered_delete tasks q i : covered tasks q -> covered (base.delete i tasks) q.
Proof.
  intros C t Ht. apply C. eapply list_elem_of_delete_inv, Ht.
Qed.

Lemma covered_insert tasks q i b :
  covered tasks q ->
  (isLocal b = Some true -> pending create b q) ->
  (needsSync b = Some true -> isLocal b <> Some true -> pending update b q) ->
  covered (<[i := b]> tasks) q.
Proof.
  intros C L N t Ht. apply list_elem_of_lookup in Ht as (j & Hj).
  apply list_lookup_insert_Some in Hj as [(-> & <- & _) | (_ & Hj)].
  - auto.
  - apply C. eapply list_elem_of_lookup_2; eauto.
Qed.

Lemma covered_snoc tasks q t a :
  covered tasks q -> isLocal t = Some true ->
  type a = create -> taskId a = task_id t ->
  covered (tasks ++ [t]) (q ++ [a]).
Proof.
  intros C L K I x Hx. apply elem_of_app in Hx as [Hx | Hx].
  - exact (covered_queue_grows tasks q a C x Hx).
  - apply list_elem_of_singleton in Hx as ->. split; [| congruence].
    intros _. exists a. rewrite elem_of_app, list_elem_of_singleton. auto.
Qed.

Lemma strict_eq_true a b : strict_eq a b = true -> a = b.
Proof.
  destruct a, b; cbn; try discriminate. rewrite Z.eqb_eq. congruence.
Qed.

Lemma covered_merge_update tasks q i old updateData a :
  covered tasks q -> tasks !! i = Some old ->
  type a = update -> taskId a = task_id old ->
  covered (<[i := merge_update parse old updateData]> tasks) (q ++ [a]).
Proof.
  intros C L K I. apply covered_insert.
  - apply covered_queue_grows, C.
  - cbn. intros Loc. apply pending_grows.
    destruct (C old (list_elem_of_lookup_2 _ _ _ L)) as [P _].
    destruct (P Loc) as (x & Hx & Kx & Ix). exists x. auto.
  - cbn. intros _ _. exists a. rewrite elem_of_app, list_elem_of_singleton. auto.
Qed.

Lemma unflagged_convert t : unflagged t -> unflagged (convertBackendTask parse t).
Proof. intros U. exact U. Qed.

Lemma unflagged_no_fields : unflagged no_fields.
Proof. split; discriminate. Qed.

End Covered.

Lemma server_reply_unflagged e w r b :
  server_unflagged e -> next_reply e w = Resolved r -> json r = Some b ->
  Forall unflagged (tasks_of (response_data b)).
Proof.
  intros S N J. apply Forall_forall. intros t Ht.
  exact (S (length (requests w)) r b t N J Ht).
Qed.

Lemma Forall_unflagged_convert parse l :
  Forall unflagged l -> Forall unflagged (map (convertBackendTask parse) l).
Proof.
  intros U. rewrite Forall_forall in *. intros t Ht.
  apply list_elem_of_In, in_map_iff in Ht. destruct Ht as (t0 & <- & Ht0).
  apply unflagged_convert, U, list_elem_of_In, Ht0.
Qed.

(** [fetchTasks] leaves the queue alone; the collection is either left or
    replaced by what the server sent. *)
Lemma fetchTasks_effect e w :
  server_unflagged e ->
  actions_item (snd (fetchTasks e w)) = actions_item w /\
  (tasks_item (snd (fetchTasks e w)) = tasks_item w \/
   exists l, tasks_item (snd (fetchTasks e w)) = Some l /\ Forall unflagged l).
Proof.
  intros S. unfold fetchTasks, try_catch, fetchTasks_remote, bind.
  rewrite require_token_run.
  destruct (truthy (getToken e)); [| rewrite getStoredTasks_run; cbn; auto].
  rewrite fetch_run.
  destruct (next_reply e w) as [| [[] s [[c d] |]]] eqn:N; cbn;
    rewrite ?getStoredTasks_run; cbn; auto.
  destruct (c =? 200); cbn; rewrite ?getStoredTasks_run; cbn; auto.
  destruct d as [| t | l]; cbn; rewrite ?getStoredTasks_run; cbn; auto.
  split; [reflexivity |]. right. eexists. split; [reflexivity |].
  apply Forall_unflagged_convert.
  exact (server_reply_unflagged e w _ _ S N eq_refl).
Qed.

(** With a token and a successful answer the collection is replaced. *)
Lemma fetchTasks_refreshes e w :
  server_unflagged e -> truthy (getToken e) = true ->
  get_succeeds (next_reply e w) = true ->
  exists l, tasks_item (snd (fetchTasks e w)) = Some l /\ Forall unflagged l.
Proof.
  intros S T G. unfold fetchTasks, try_catch, fetchTasks_remote, bind.
  rewrite require_token_run, T, fetch_run.
  destruct (next_reply e w) as [| [[] s [[c [| t | l]] |]]] eqn:N;
    cbn in G; rewrite ?andb_false_r in G; try discriminate G.
  rewrite andb_true_r in G. cbn. rewrite G. cbn. eexists. split; [reflexivity |].
  apply Forall_unflagged_convert.
  exact (server_reply_unflagged e w _ _ S N eq_refl).
Qed.

Lemma covered_after_fetchTasks e w q :
  server_unflagged e -> covered (default [] (tasks_item w)) q ->
  covered (default [] (tasks_item (snd (fetchTasks e w)))) q.
Proof.
  intros S C. destruct (fetchTasks_effect e w S) as (_ & [-> | (l & -> & U)]).
  - exact C.
  - apply covered_unflagged, U.
Qed.

(** The remote create changes the collection only through [fetchTasks]. *)
Lemma covered_after_createTask_remote current taskData e w q :
  server_unflagged e -> covered (default [] (tasks_item w)) q ->
  covered (default [] (tasks_item (snd (createTask_remote current taskData e w)))) q.
Proof.
  intros S C. unfold createTask_remote, bind. rewrite require_token_run.
  destruct (truthy (getToken e)); [| exact C].
  rewrite fetch_run.
  destruct (next_reply e w) as [| [[] s [[c d] |]]]; cbn; try exact C.
  destruct ((c =? 200) || (c =? 201)); [| exact C].
  unfold bind, try_catch.
  match goal with
  | |- context [fetchTasks e ?w0] =>
      pose proof (covered_after_fetchTasks e w0 q S C) as C2;
      destruct (fetchTasks_total e w0) as (l & w2 & F0 & _);
      rewrite F0 in C2 |- *
  end; cbn in C2.
  pose proof (find_created_state d l e w2) as F.
  destruct (find_created d l e w2) as [[[found |] | err'] w3]; cbn in F; subst w3;
    cbn; try exact C2;
    destruct d as [| [? ? ? ? ? [u |] ? ? ?] | l']; cbn; exact C2.
Qed.

(** The remote update either stores the server's record in place of the
    old one, or throws having stored nothing. *)
Lemma updateTask_remote_effect tasks i tid updateData e w :
  server_unflagged e ->
  (exists b w', updateTask_remote tasks i tid updateData e w = (Ok b, w') /\
     unflagged b /\ tasks_item w' = Some (<[i := b]> tasks) /\
     actions_item w' = actions_item w) \/
  (exists err w1, updateTask_remote tasks i tid updateData e w = (Throw err, w1) /\
     tasks_item w1 = tasks_item w /\ actions_item w1 = actions_item w).
Proof.
  intros S. unfold updateTask_remote, bind. rewrite require_token_run.
  destruct (truthy (getToken e)); [| right; eauto].
  rewrite fetch_run.
  destruct (next_reply e w) as [| [[] s [[c d] |]]] eqn:N; cbn;
    try (right; eauto; fail).
  destruct (c =? 200); cbn; [| right; eauto].
  pose proof (server_reply_unflagged e w _ _ S N eq_refl) as U. cbn in U.
  destruct d as [| t | l]; cbn; [right; eauto | |]; left;
    eexists _, _; (split; [reflexivity |]); (split; [| split; reflexivity]).
  - apply unflagged_convert. apply Forall_inv in U. exact U.
  - apply unflagged_convert, unflagged_no_fields.
Qed.

(** The remote delete either stores the collection without the task, or
    throws having stored nothing. *)
Lemma deleteTask_remote_effect tasks i tid e w :
  (exists w', deleteTask_remote tasks i tid e w = (Ok tt, w') /\
     tasks_item w' = Some (splice1 i tasks) /\ actions_item w' = actions_item w) \/
  (exists err w1, deleteTask_remote tasks i tid e w = (Throw err, w1) /\
     tasks_item w1 = tasks_item w /\ actions_item w1 = actions_item w).
Proof.
  unfold deleteTask_remote, bind. rewrite require_token_run.
  destruct (truthy (getToken e)); [| right; eauto].
  rewrite fetch_run.
  destruct (next_reply e w) as [| [[] s [[c d] |]]]; cbn; try (right; eauto; fail).
  destruct (c =? 200); cbn; [left | right]; eauto.
Qed.

Lemma createTask_preserves taskData e w :
  server_unflagged e -> flags_have_actions w ->
  flags_have_actions (snd (createTask taskData e w)).
Proof.
  intros S C. unfold createTask. unfold bind at 1, ask at 1.
  destruct (getCurrentUser e) as [current |]; [| exact C].
  unfold bind at 1. rewrite generateId_run. unfold try_catch.
  set (w0 := tick_random (tick_clock w)).
  pose proof (covered_after_createTask_remote current taskData e w0 (queue w) S C) as C1.
  pose proof (createTask_remote_queue current taskData e w0) as Q1.
  destruct (createTask_remote current taskData e w0) as [[t | err] w1];
    cbn in C1, Q1.
  - unfold flags_have_actions, queue. cbn. rewrite Q1. exact C1.
  - unfold createTask_offline, bind. rewrite getStoredTasks_run, storeTasks_run.
    rewrite generateId_run. cbn [Date_now bind ask get modify ret].
    rewrite storeOfflineAction_run. unfold flags_have_actions, queue. cbn.
    rewrite Q1. unfold id. apply covered_snoc; try reflexivity.
    apply covered_revive, C1.
Qed.

Lemma updateTask_preserves tid updateData e w :
  server_unflagged e -> flags_have_actions w ->
  flags_have_actions (snd (updateTask tid updateData e w)).
Proof.
  intros S C. unfold updateTask, bind. rewrite getStoredTasks_run.
  destruct (findIndex tid (stored_tasks e w)) as [[i old] |] eqn:F; [| exact C].
  unfold ask at 1, try_catch.
  apply list_find_Some in F as (L & P & _).
  assert (I : task_id old = tid).
  { apply strict_eq_true. destruct (strict_eq (task_id old) tid); [reflexivity | contradiction]. }
  pose proof (covered_revive (Date_parse e) _ _ C) as CR. fold (stored_tasks e w) in CR.
  destruct (updateTask_remote_effect (stored_tasks e w) i tid updateData e w S)
    as [(b & w' & -> & [UL UN] & HT & HA) | (err & w1 & -> & HT & HA)].
  - unfold flags_have_actions, queue. cbn. rewrite HT, HA. cbn.
    apply covered_insert; [exact CR | |]; intros; contradiction.
  - unfold updateTask_offline, bind. rewrite storeTasks_run, generateId_run.
    cbn [Date_now bind ask get modify ret]. rewrite storeOfflineAction_run.
    unfold flags_have_actions, queue. cbn. rewrite HA. unfold id.
    apply covered_merge_update; auto.
Qed.

Lemma deleteTask_preserves tid e w :
  flags_have_actions w -> flags_have_actions (snd (deleteTask tid e w)).
Proof.
  intros C. unfold deleteTask, bind. rewrite getStoredTasks_run.
  destruct (findIndex tid (stored_tasks e w)) as [[i old] |] eqn:F; [| exact C].
  unfold try_catch.
  pose proof (covered_revive (Date_parse e) _ _ C) as CR. fold (stored_tasks e w) in CR.
  destruct (deleteTask_remote_effect (stored_tasks e w) i tid e w)
    as [(w' & -> & HT & HA) | (err & w1 & -> & HT & HA)].
  - unfold flags_have_actions, queue. cbn. rewrite HT, HA. cbn.
    apply covered_delete, CR.
  - unfold deleteTask_offline, bind. rewrite storeTasks_run, generateId_run.
    cbn [Date_now bind ask get modify ret]. rewrite storeOfflineAction_run.
    unfold flags_have_actions, queue. cbn. rewrite HA. unfold id.
    apply covered_queue_grows, covered_delete, CR.
Qed.

Lemma fetchTasks_preserves e w :
  server_unflagged e -> flags_have_actions w ->
  flags_have_actions (snd (fetchTasks e w)).
Proof.
  intros S C. unfold flags_have_actions, queue.
  destruct (fetchTasks_effect e w S) as (-> & _).
  apply covered_after_fetchTasks; assumption.
Qed.

Lemma syncOfflineChanges_preserves e w :
  server_unflagged e -> sync_refreshes e w -> flags_have_actions w ->
  flags_have_actions (snd (syncOfflineChanges e w)).
Proof.
  intros S R C. unfold syncOfflineChanges. unfold bind at 1.
  rewrite getOfflineActions_run. unfold bind at 1, ask at 1.
  destruct (truthy (getToken e)) eqn:T; [| exact C]. cbn [negb orb].
  destruct R as [R | [R | R]]; [congruence | rewrite R; exact C |].
  destruct (queue w) as [| a0 q0] eqn:Q; [exact C |].
  cbn [length Nat.eqb]. unfold bind at 1.
  destruct (drain_loop (default "" (getToken e)) (a0 :: q0) e w)
    as (w1 & -> & HR & HT & HA).
  unfold bind at 1, clearOfflineActions, modify. unfold bind at 1.
  assert (G : get_succeeds (next_reply e (set_actions_item None w1)) = true).
  { unfold next_reply. cbn [requests set_actions_item]. rewrite HR.
    rewrite length_app, length_map. exact R. }
  destruct (fetchTasks_refreshes e _ S T G) as (l & HL & U).
  destruct (fetchTasks_effect e (set_actions_item None w1) S) as (FA & _).
  destruct (fetchTasks e (set_actions_item None w1)) as [[l' | err] w2];
    cbn in HL, FA |- *; unfold flags_have_actions, queue;
    rewrite HL, FA; apply covered_unflagged, U.
Qed.

Lemma perform_preserves op e w :
  server_unflagged e -> refreshing op e w -> flags_have_actions w ->
  flags_have_actions (perform op e w).
Proof.
  intros S R C. destruct op; cbn [perform].
  - apply createTask_preserves; assumption.
  - apply updateTask_preserves; assumption.
  - apply deleteTask_preserves; assumption.
  - apply syncOfflineChanges_preserves; assumption.
  - apply fetchTasks_preserves; assumption.
Qed.

Example one_local_task_stored :
  tasks_item one_local_task =
    Some [mkTask (Some 17000000) (Some "Pay rent") (Some false) (Some "2024-01-15")
                 (Some (Some 1705276800000)) (Some (mkUser (Some 1) "admin"))
                 (Some "1") (Some true) (Some true)] /\
  actions_item one_local_task =
    Some [mkOfflineAction "local_1700000000000_k3j2h1g0f" create (Some 17000000)
                          (Some (CreateData pay_rent)) (Some 1700000000000)].
Proof. split; vm_compute; reflexivity. Qed.

Example after_offline_sync_stored :
  tasks_item after_offline_sync = tasks_item one_local_task /\
  actions_item after_offline_sync = None.
Proof. split; vm_compute; reflexivity. Qed.

(** C3, as stated, fails: after a task is created offline and a sync runs
    whose requests all fail, the task is still stored with [isLocal] set
    while the queue is empty. *)
Lemma flagged_task_left_without_action :
  ~ (forall w, reachable w -> flags_have_actions w).
Proof.
  intros H.
  assert (R : reachable after_offline_sync) by (do 2 apply reachable_step; constructor).
  specialize (H _ R). unfold flags_have_actions, queue in H.
  destruct after_offline_sync_stored as [ET EA].
  destruct one_local_task_stored as [ET1 _].
  rewrite ET, ET1, EA in H. cbn in H.
  edestruct H as [L _]; [apply list_elem_of_singleton; reflexivity |].
  destruct (L eq_refl) as (a & Ha & _). apply elem_of_nil in Ha. exact Ha.
Qed.

(** The hypothesis on the server in the amended invariant is needed:
    [convertBackendTask] copies whatever flags a record arrives with. *)
Example flags_copied_from_server :
  ~ flags_have_actions (perform FetchTasks echoing_server initial).
Proof.
  intros H. unfold flags_have_actions in H.
  edestruct H as [L _]; [apply list_elem_of_In; vm_compute; left; reflexivity |].
  destruct (L eq_refl) as (a & Ha & _). vm_compute in Ha.
  apply elem_of_nil in Ha. exact Ha.
Qed.

(** C3, amended. In every state reached from a fresh installation by
    [createTask], [updateTask], [deleteTask], [fetchTasks] and runs of
    [syncOfflineChanges] that return early or whose closing refresh
    succeeds, against a server whose records carry neither flag, each
    stored task with [isLocal] set has a queued [create] for its id, and
    each stored task with [needsSync] set and [isLocal] not set has a
    queued [update] for its id. *)
Theorem flags_have_actions_while_refreshing w :
  reachable_refreshing w -> flags_have_actions w.
Proof.
  induction 1 as [| op e w R IH S F].
  - unfold flags_have_actions. cbn. apply covered_nil.
  - apply perform_preserves; assumption.
Qed.

(** ** Decimal strings *)

Module JsFacts.
Import Js.

Lemma app_cons x (a b : string) : String x a +:+ b = String x (a +:+ b).
Proof. reflexivity. Qed.

Lemma app_empty_l (a : string) : "" +:+ a = a.
Proof. reflexivity. Qed.

Lemma string_app_assoc (a b c : string) : (a +:+ b) +:+ c = a +:+ (b +:+ c).
Proof.
  induction a as [| x a IH]; [reflexivity |].
  rewrite ?app_cons; cbn [String.length]; rewrite IH; reflexivity.
Qed.

Lemma string_app_empty_r (a : string) : a +:+ "" = a.
Proof.
  induction a as [| x a IH]; [reflexivity |].
  rewrite ?app_cons; cbn [String.length]; rewrite IH; reflexivity.
Qed.

Lemma string_length_app (a b : string) :
  String.length (a +:+ b) = (String.length a + String.length b)%nat.
Proof.
  induction a as [| x a IH]; [reflexivity |].
  rewrite ?app_cons; cbn [String.length]; rewrite IH; reflexivity.
Qed.

Lemma digit_cases d : 0 <= d < 10 ->
  d = 0 \/ d = 1 \/ d = 2 \/ d = 3 \/ d = 4 \/ d = 5 \/ d = 6 \/ d = 7 \/ d = 8 \/ d = 9.
Proof. lia. Qed.

Lemma digit_value_char d : 0 <= d < 10 -> digit_value (digit_char d) = Some d.
Proof.
  intros H. destruct (digit_cases d H) as [-> | [-> | [-> | [-> | [-> | [-> | [-> | [-> | [-> | ->]]]]]]]]];
    reflexivity.
Qed.

Lemma digits_acc_small f n acc :
  0 <= n < 10 -> digits_acc f n acc = String (digit_char n) acc.
Proof.
  intros H. destruct f; cbn; rewrite Z.mod_small by lia; [reflexivity |].
  destruct (Z.ltb_spec n 10); [reflexivity | lia].
Qed.

Lemma digits_acc_step f n acc :
  10 <= n ->
  digits_acc (S f) n acc = digits_acc f (n / 10) (String (digit_char (n mod 10)) acc).
Proof.
  intros H. cbn. destruct (Z.ltb_spec n 10); [lia | reflexivity].
Qed.

(** Enough fuel is as good as more. *)
Lemma digits_acc_fuel f1 : forall f2 n acc,
  0 <= n < 10 ^ Z.of_nat (S f1) -> n < 10 ^ Z.of_nat (S f2) ->
  digits_acc f1 n acc = digits_acc f2 n acc.
Proof.
  induction f1 as [| f1 IH]; intros f2 n acc H1 H2.
  - change (10 ^ Z.of_nat 1) with 10 in H1.
    rewrite !digits_acc_small by lia. reflexivity.
  - destruct (Z.lt_ge_cases n 10) as [S | L].
    + rewrite !digits_acc_small by lia. reflexivity.
    + destruct f2 as [| f2]; [change (10 ^ Z.of_nat 1) with 10 in H2; lia |].
      rewrite !digits_acc_step by lia.
      rewrite Nat2Z.inj_succ, Z.pow_succ_r in H1, H2 by lia.
      apply IH; [split; [apply Z.div_pos; lia |] |];
        apply Z.div_lt_upper_bound; lia.
Qed.

Lemma digits_acc_app f : forall n acc,
  digits_acc f n acc = digits_acc f n "" +:+ acc.
Proof.
  induction f as [| f IH]; intros n acc; [reflexivity |].
  cbn [digits_acc]. destruct (n <? 10); [reflexivity |].
  rewrite IH, (IH _ (String _ "")), string_app_assoc. reflexivity.
Qed.

Lemma log2_fuel n : 0 <= n -> n < 10 ^ Z.of_nat (S (Z.to_nat (Z.log2 n))).
Proof.
  intros H. rewrite Nat2Z.inj_succ, Z2Nat.id by apply Z.log2_nonneg.
  destruct (Z.eq_dec n 0) as [-> | N]; [reflexivity |].
  pose proof (Z.log2_nonneg n) as L.
  apply Z.lt_le_trans with (2 ^ Z.succ (Z.log2 n)).
  - apply Z.log2_spec. lia.
  - apply Z.pow_le_mono_l. lia.
Qed.

Lemma digits_small r : 0 <= r < 10 -> digits r = String (digit_char r) "".
Proof. intros H. apply digits_acc_small, H. Qed.

(** The decimal string of [10 q + r] is that of [q] followed by the digit
    [r]. *)
Lemma digits_snoc q r :
  0 < q -> 0 <= r < 10 ->
  digits (10 * q + r) = digits q +:+ String (digit_char r) "".
Proof.
  intros Q R. unfold digits.
  rewrite (digits_acc_fuel _ (S (Z.to_nat (Z.log2 q))) (10 * q + r) "").
  - rewrite digits_acc_step by lia.
    replace ((10 * q + r) / 10) with q by (apply Z.div_unique with r; lia).
    replace ((10 * q + r) mod 10) with r by (apply Z.mod_unique with q; lia).
    apply digits_acc_app.
  - split; [lia | apply log2_fuel; lia].
  - pose proof (log2_fuel q ltac:(lia)) as F.
    rewrite (Nat2Z.inj_succ (S _)), Z.pow_succ_r by lia. lia.
Qed.

(** Induction on a natural number along its decimal digits. *)
Lemma digit_ind (P : Z -> Prop) :
  (forall r, 0 <= r < 10 -> P r) ->
  (forall q r, 0 < q -> 0 <= r < 10 -> P q -> P (10 * q + r)) ->
  forall n, 0 <= n -> P n.
Proof.
  intros Base Step n. pattern n. apply (well_founded_induction (Z.lt_wf 0)).
  clear n. intros n IH N.
  destruct (Z.lt_ge_cases n 10) as [S | L]; [apply Base; lia |].
  rewrite (Z.div_mod n 10) by lia.
  pose proof (Z.mod_pos_bound n 10 ltac:(lia)) as M.
  assert (Q : 0 < n / 10) by (apply Z.div_str_pos; lia).
  apply Step; [exact Q | exact M |].
  apply IH; [| lia]. split; [lia |]. apply Z.div_lt; lia.
Qed.

Lemma digits_first_char n :
  0 <= n -> exists d s, 0 <= d < 10 /\ digits n = String (digit_char d) s.
Proof.
  revert n. apply digit_ind.
  - intros r R. exists r, "". split; [exact R | apply digits_small, R].
  - intros q r Q R (d & s & D & E). exists d, (s +:+ String (digit_char r) "").
    split; [exact D |]. rewrite digits_snoc, E by assumption. reflexivity.
Qed.

Lemma length_digits_upper k : forall n,
  0 <= n < 10 ^ Z.of_nat (S k) -> (String.length (digits n) <= S k)%nat.
Proof.
  induction k as [| k IH]; intros n H.
  - change (10 ^ Z.of_nat 1) with 10 in H. rewrite digits_small by lia. cbn. lia.
  - destruct (Z.lt_ge_cases n 10) as [S | L].
    + rewrite digits_small by lia. cbn. lia.
    + rewrite (Nat2Z.inj_succ (S k)), Z.pow_succ_r in H by lia.
      rewrite (Z.div_mod n 10) by lia.
      rewrite digits_snoc;
        [| apply Z.div_str_pos; lia | apply Z.mod_pos_bound; lia].
      rewrite string_length_app. cbn [String.length].
      assert (String.length (digits (n / 10)) <= S k)%nat; [| lia].
      apply IH. split; [apply Z.div_pos; lia | apply Z.div_lt_upper_bound; lia].
Qed.

Lemma length_digits_lower k : forall n,
  10 ^ Z.of_nat k <= n -> (S k <= String.length (digits n))%nat.
Proof.
  induction k as [| k IH]; intros n H.
  - change (10 ^ Z.of_nat 0) with 1 in H.
    destruct (digits_first_char n ltac:(lia)) as (d & s & _ & ->). cbn. lia.
  - rewrite Nat2Z.inj_succ, Z.pow_succ_r in H by lia.
    assert (P : 0 < 10 ^ Z.of_nat k) by (apply Z.pow_pos_nonneg; lia).
    rewrite (Z.div_mod n 10) by lia.
    rewrite digits_snoc;
      [| apply Z.div_str_pos; lia | apply Z.mod_pos_bound; lia].
    rewrite string_length_app. cbn [String.length].
    assert (S k <= String.length (digits (n / 10)))%nat; [| lia].
    apply IH. apply Z.div_le_lower_bound; lia.
Qed.

Lemma substring_app_short s : forall m t,
  (String.length s <= m)%nat ->
  String.substring 0 m (s +:+ t) = s +:+ String.substring 0 (m - String.length s) t.
Proof.
  induction s as [| c s IH]; intros m t H.
  - rewrite !app_empty_l. cbn [String.length]. rewrite Nat.sub_0_r. reflexivity.
  - cbn [String.length] in *. destruct m as [| m]; [lia |].
    rewrite !app_cons. cbn [String.substring Nat.sub]. rewrite IH by lia. reflexivity.
Qed.

Lemma substring_app_long s : forall m t,
  (m <= String.length s)%nat ->
  String.substring 0 m (s +:+ t) = String.substring 0 m s.
Proof.
  induction s as [| c s IH]; intros m t H.
  - cbn [String.length] in H. assert (m = 0%nat) as -> by lia.
    destruct t; reflexivity.
  - destruct m as [| m]; [reflexivity |].
    cbn [String.length] in H. rewrite app_cons. cbn [String.substring].
    rewrite IH by lia. reflexivity.
Qed.

Lemma substring_whole s : String.substring 0 (String.length s) s = s.
Proof.
  induction s as [| c s IH]; [reflexivity |].
  cbn [String.length String.substring]. rewrite IH. reflexivity.
Qed.

Lemma leading_small f bound n : n < bound -> leading f bound n = n.
Proof.
  intros H. destruct f; cbn; [reflexivity |].
  destruct (Z.ltb_spec n bound); [reflexivity | lia].
Qed.

Lemma leading_fuel bound f1 : forall f2 n,
  10 <= bound ->
  0 <= n < 10 ^ Z.of_nat (S f1) -> n < 10 ^ Z.of_nat (S f2) ->
  leading f1 bound n = leading f2 bound n.
Proof.
  induction f1 as [| f1 IH]; intros f2 n B H1 H2.
  - change (10 ^ Z.of_nat 1) with 10 in H1.
    rewrite !leading_small by lia. reflexivity.
  - destruct (Z.lt_ge_cases n bound) as [S | L].
    + rewrite !leading_small by lia. reflexivity.
    + destruct f2 as [| f2]; [change (10 ^ Z.of_nat 1) with 10 in H2; lia |].
      cbn [leading]. destruct (Z.ltb_spec n bound); [lia |].
      rewrite Nat2Z.inj_succ, Z.pow_succ_r in H1, H2 by lia.
      apply IH; [exact B | split; [apply Z.div_pos; lia |] |];
        apply Z.div_lt_upper_bound; lia.
Qed.

Lemma first_8_digits_small n : n < 10 ^ 8 -> first_8_digits n = n.
Proof. intros H. apply leading_small, H. Qed.

Lemma first_8_digits_step n :
  10 ^ 8 <= n -> first_8_digits n = first_8_digits (n / 10).
Proof.
  intros H. unfold first_8_digits.
  assert (N : 0 <= n) by lia.
  assert (Q : 0 <= n / 10) by (apply Z.div_pos; lia).
  pose proof (log2_fuel n N) as F. pose proof (log2_fuel (n / 10) Q) as F'.
  rewrite (leading_fuel _ _ (S (Z.to_nat (Z.log2 (n / 10)))) n);
    [| lia | lia |].
  - cbn [leading]. destruct (Z.ltb_spec n (10 ^ 8)); [lia | reflexivity].
  - rewrite (Nat2Z.inj_succ (S _)), Z.pow_succ_r by lia.
    pose proof (Z.div_mod n 10 ltac:(lia)).
    pose proof (Z.mod_pos_bound n 10 ltac:(lia)). lia.
Qed.

(** Reading back a decimal string gives the number, and continues with
    what follows it. *)
Lemma read_digits_digits n :
  0 <= n -> forall rest,
  read_digits digit_value 10 0 (digits n +:+ rest) = read_digits digit_value 10 n rest.
Proof.
  revert n. apply (digit_ind (fun n => forall rest,
    read_digits digit_value 10 0 (digits n +:+ rest)
    = read_digits digit_value 10 n rest)).
  - intros r R rest. rewrite digits_small, app_cons, app_empty_l by exact R.
    cbn [read_digits]. rewrite digit_value_char by exact R. f_equal.
  - intros q r Q R IH rest. rewrite digits_snoc, string_app_assoc by assumption.
    rewrite IH, app_cons, app_empty_l. cbn [read_digits].
    rewrite digit_value_char by exact R. reflexivity.
Qed.

Lemma parseInt10_digit_first d s :
  0 <= d < 10 ->
  parseInt10 (String (digit_char d) s) =
  Some (read_digits digit_value 10 0 (String (digit_char d) s)).
Proof.
  intros H. destruct (digit_cases d H) as [-> | [-> | [-> | [-> | [-> | [-> | [-> | [-> | [-> | ->]]]]]]]]];
    reflexivity.
Qed.

(** [parseInt] of a decimal string followed by something that is not a
    digit. *)
Lemma parseInt10_digits n rest :
  0 <= n -> starts_with_digit digit_value rest = false ->
  parseInt10 (digits n +:+ rest) = Some n.
Proof.
  intros N R. destruct (digits_first_char n N) as (d & s & D & E).
  pose proof (read_digits_digits n N rest) as RD.
  rewrite E, app_cons in *. rewrite parseInt10_digit_first, RD by exact D.
  f_equal. destruct rest as [| c rest]; [reflexivity |].
  cbn in R |- *. destruct (digit_value c); [| reflexivity].
  rewrite bool_decide_true in R by eauto. discriminate R.
Qed.

(** With 8 digits or more, the first 8 characters are the decimal string of
    the leading digits. *)
Lemma substring_digits_long n :
  0 <= n -> 10 ^ 7 <= n -> forall tail,
  String.substring 0 8 (digits n +:+ tail) = digits (first_8_digits n).
Proof.
  intros N. revert n N. apply (digit_ind (fun n => 10 ^ 7 <= n -> forall tail,
    String.substring 0 8 (digits n +:+ tail) = digits (first_8_digits n))).
  - intros r R H. lia.
  - intros q r Q R IH H tail.
    destruct (Z.lt_ge_cases (10 * q + r) (10 ^ 8)) as [S | L].
    + rewrite first_8_digits_small by exact S.
      pose proof (length_digits_upper 7 (10 * q + r) ltac:(split; [lia | exact S])) as U.
      pose proof (length_digits_lower 7 (10 * q + r) H) as V.
      rewrite substring_app_long by lia.
      replace 8%nat with (String.length (digits (10 * q + r))) by lia.
      apply substring_whole.
    + rewrite first_8_digits_step by exact L.
      replace ((10 * q + r) / 10) with q by (apply Z.div_unique with r; lia).
      rewrite digits_snoc, string_app_assoc by assumption.
      apply IH. lia.
Qed.

Lemma replace_local_prefix s : Js.replace "local_" "" ("local_" +:+ s) = s.
Proof. destruct s; reflexivity. Qed.

(** The provisional identifier derived from an id generated at [now]. *)
Lemma localId_generated now rnd :
  0 <= now ->
  localId ("local_" +:+ Z_to_string now +:+ "_" +:+ rnd) = Some (first_8_digits now).
Proof.
  intros N. unfold localId.
  rewrite replace_local_prefix.
  change ("_" +:+ rnd) with (String "_" rnd).
  unfold Z_to_string. destruct (Z.ltb_spec now 0); [lia |].
  unfold Js.substring. cbn [Nat.sub].
  destruct (Z.lt_ge_cases now (10 ^ 7)) as [S | L].
  - pose proof (length_digits_upper 6 now ltac:(split; [lia | exact S])) as U.
    rewrite substring_app_short by lia.
    destruct (8 - String.length (digits now))%nat as [| k] eqn:K; [lia |].
    cbn [String.substring]. rewrite parseInt10_digits by (exact N || reflexivity).
    rewrite first_8_digits_small by lia. reflexivity.
  - rewrite substring_digits_long by assumption.
    rewrite <- (string_app_empty_r (digits (first_8_digits now))).
    apply parseInt10_digits; [| reflexivity].
    clear - N L. revert L. revert now N.
    apply (digit_ind (fun n => 10 ^ 7 <= n -> 0 <= first_8_digits n)).
    + intros r R H. lia.
    + intros q r Q R IH H.
      destruct (Z.lt_ge_cases (10 * q + r) (10 ^ 8)) as [S | L].
      * rewrite first_8_digits_small by exact S. lia.
      * rewrite first_8_digits_step by exact L.
        replace ((10 * q + r) / 10) with q by (apply Z.div_unique with r; lia).
        apply IH. lia.
Qed.

(** For a 13-digit timestamp the leading 8 digits drop the last 5: the
    number of the 100-second window. *)
Lemma first_8_digits_13 now :
  10 ^ 12 <= now < 10 ^ 13 -> first_8_digits now = now / 100000.
Proof.
  intros H.
  assert (D : forall a b, 0 < b -> 10 ^ 8 * b <= a -> 10 ^ 8 <= a / b).
  { intros a b B L. apply Z.div_le_lower_bound; lia. }
  rewrite first_8_digits_step by lia.
  rewrite first_8_digits_step by (apply D; lia).
  rewrite Z.div_div by lia.
  rewrite first_8_digits_step by (apply D; lia).
  rewrite Z.div_div by lia.
  rewrite first_8_digits_step by (apply D; lia).
  rewrite Z.div_div by lia.
  rewrite first_8_digits_step by (apply D; lia).
  rewrite Z.div_div by lia.
  change (10 * 10 * 10 * 10 * 10) with 100000.
  apply first_8_digits_small. apply Z.div_lt_upper_bound; lia.
Qed.

End JsFacts.

(** C10, as stated, fails: two invocations 100 seconds apart, in the same
    28-hour window, are assigned different provisional identifiers. *)
Lemma same_28_hours_different_ids :
  ~ (forall e w e' w',
       0 <= time_at e (clock_reads w) -> 0 <= time_at e' (clock_reads w') ->
       time_at e (clock_reads w) / hours28 = time_at e' (clock_reads w') / hours28 ->
       assigned_id e w = assigned_id e' w').
Proof.
  intros H.
  specialize (H offline initial offline_later initial).
  assert (D : assigned_id offline initial <> assigned_id offline_later initial)
    by (vm_compute; discriminate).
  apply D, H; vm_compute; congruence.
Qed.

(** C10, amended. The provisional identifier [createTask] assigns is the
    integer formed by the first 8 decimal digits of the millisecond
    timestamp it reads; two invocations whose timestamps agree on those
    digits are assigned the same identifier; for a 13-digit timestamp the
    digits are [now / 100000], the number of the 100-second window; and the
    task returned after a failed remote create carries that identifier. *)
Theorem provisional_id_is_leading_digits e w :
  let now := time_at e (clock_reads w) in
  0 <= now ->
  assigned_id e w = Some (first_8_digits now) /\
  (forall e' w',
     0 <= time_at e' (clock_reads w') ->
     first_8_digits (time_at e' (clock_reads w')) = first_8_digits now ->
     assigned_id e' w' = assigned_id e w) /\
  (10 ^ 12 <= now < 10 ^ 13 -> first_8_digits now = now / 100000) /\
  (forall taskData current err w1,
     getCurrentUser e = Some current ->
     createTask_remote current taskData e (tick_random (tick_clock w)) = (Throw err, w1) ->
     exists t w', createTask taskData e w = (Ok t, w') /\ task_id t = assigned_id e w).
Proof.
  intros now N.
  assert (A : forall e0 w0, 0 <= time_at e0 (clock_reads w0) ->
            assigned_id e0 w0 = Some (first_8_digits (time_at e0 (clock_reads w0)))).
  { intros e0 w0 N0. unfold assigned_id. rewrite generateId_run.
    apply JsFacts.localId_generated, N0. }
  split; [apply A, N |]. split; [| split].
  - intros e' w' N' E. rewrite (A e' w' N'), (A e w N), E. reflexivity.
  - apply JsFacts.first_8_digits_13.
  - intros taskData current err w1 U R.
    unfold createTask. unfold bind at 1, ask at 1. rewrite U.
    unfold bind at 1. unfold assigned_id. rewrite generateId_run.
    unfold try_catch. rewrite R.
    unfold createTask_offline, bind. rewrite getStoredTasks_run, storeTasks_run.
    rewrite generateId_run. cbn [Date_now bind ask get modify ret].
    rewrite storeOfflineAction_run. eexists _, _. split; reflexivity.
Qed.

(** ** Worked instances *)

Example getDueTasks_today_not_tomorrow :
  fst (getDueTasks morning_of_15 two_tasks) =
  Ok [mkTask (Some 17000000) (Some "Pay rent") (Some false) (Some "2024-01-15")
             (Some (Some 1705276800000)) (Some (mkUser (Some 1) "admin"))
             (Some "1") (Some true) (Some true)].
Proof. vm_compute. reflexivity. Qed.

Example two_offline_creates_share_an_id :
  map task_id (stored_tasks offline two_tasks) = [Some 17000000; Some 17000000].
Proof. vm_compute. reflexivity. Qed.

Lemma sync_empties_queue_witness :
  exists w', syncOfflineChanges offline created_then_updated = (Ok tt, w') /\ queue w' = [].
Proof.
  apply sync_empties_queue; [reflexivity | vm_compute; discriminate].
Defined.


Lemma flags_have_actions_while_refreshing_witness :
  flags_have_actions created_then_updated.
Proof.
  apply flags_have_actions_while_refreshing.
  unfold created_then_updated, one_local_task.
  do 2 (apply refreshing_step;
        [| intros n r b t H; vm_compute in H; discriminate H | exact I]).
  apply refreshing_initial.
Defined.

Lemma createTask_offline_is_durable_witness :
  exists t w' a,
    createTask pay_rent offline initial = (Ok t, w') /\
    isLocal t = Some true /\ needsSync t = Some true /\
    t ∈ stored_tasks offline w' /\
    queue w' = queue initial ++ [a] /\
    type a = create /\ data a = Some (CreateData pay_rent) /\
    taskId a = task_id t.
Proof.
  eapply (createTask_offline_is_durable offline initial pay_rent admin);
    [reflexivity | vm_compute; reflexivity].
Defined.

Lemma sync_replays_in_insertion_order_witness :
  requests (snd (syncOfflineChanges offline created_then_updated)) =
  requests created_then_updated
  ++ map (sync_request "jwt") (queue created_then_updated)
  ++ [mkRequest GET apiUrl "jwt" None].
Proof.
  apply (sync_replays_in_insertion_order offline created_then_updated);
    [reflexivity | vm_compute; discriminate].
Defined.

Lemma deleteTask_offline_removes_and_queues_witness :
  exists w' a before after,
    deleteTask (Some 17000000) offline one_local_task = (Ok tt, w') /\
    stored_tasks offline one_local_task
      = before ++ provisional_task sample_parse admin
                    "local_1700000000000_k3j2h1g0f" pay_rent :: after /\
    strict_eq (Some 17000000) (Some 17000000) = true /\
    (forall x, x ∈ before -> strict_eq (task_id x) (Some 17000000) = false) /\
    stored_tasks offline w' = before ++ after /\
    queue w' = queue one_local_task ++ [a] /\
    type a = delete /\ taskId a = Some 17000000 /\ data a = None.
Proof.
  eapply (deleteTask_offline_removes_and_queues offline one_local_task
            (Some 17000000) 0%nat);
    vm_compute; reflexivity.
Defined.

Lemma update_delete_absent_not_found_witness :
  updateTask (Some 5) mark_completed offline one_local_task
    = (Throw TaskNotFound, one_local_task) /\
  deleteTask (Some 5) offline one_local_task = (Throw TaskNotFound, one_local_task).
Proof.
  apply update_delete_absent_not_found.
  intros t Ht. apply list_elem_of_In in Ht. vm_compute in Ht.
  destruct Ht as [<- | []]. reflexivity.
Defined.

Lemma createTask_requires_user_witness :
  createTask pay_rent logged_out one_local_task
    = (Throw AuthenticationRequired, one_local_task) /\
  tasks_item (snd (createTask pay_rent logged_out one_local_task))
    = tasks_item one_local_task /\
  actions_item (snd (createTask pay_rent logged_out one_local_task))
    = actions_item one_local_task.
Proof.
  apply createTask_requires_user. reflexivity.
Defined.

Lemma provisional_id_is_leading_digits_witness :
  assigned_id offline initial = Some (first_8_digits 1700000000000).
Proof.
  destruct (provisional_id_is_leading_digits offline initial) as [H _];
    [vm_compute; discriminate | exact H].
Defined.

(** ** Further behaviour of the task service *)

Lemma revive_convertBackendTask parse t :
  revive parse (convertBackendTask parse t) = convertBackendTask parse t.
Proof. reflexivity. Qed.

Lemma map_revive_convert parse l :
  map (revive parse) (map (convertBackendTask parse) l)
  = map (convertBackendTask parse) l.
Proof. rewrite map_map. apply map_ext. intros t. apply revive_convertBackendTask. Qed.

(** The successful run of [fetchTasks]. *)
Lemma fetchTasks_success_run e w r l :
  truthy (getToken e) = true ->
  next_reply e w = Resolved r -> ok r = true ->
  json r = Some (mkApiResponse 200 (TaskList l)) ->
  exists w',
    fetchTasks e w = (Ok (map (convertBackendTask (Date_parse e)) l), w') /\
    stored_tasks e w' = map (convertBackendTask (Date_parse e)) l /\
    tasks_item w' = Some (map (convertBackendTask (Date_parse e)) l) /\
    actions_item w' = actions_item w /\
    requests w' = requests w ++ [mkRequest GET apiUrl (default "" (getToken e)) None].
Proof.
  intros T N O J. unfold fetchTasks, try_catch, fetchTasks_remote, bind.
  rewrite require_token_run, T, fetch_run, N, O. cbn.
  unfold response_json. rewrite J. cbn.
  eexists. split; [reflexivity |]. cbn. split; [| repeat split; reflexivity].
  unfold stored_tasks. cbn. apply map_revive_convert.
Qed.

(** X1. On a successful answer (a token, a 2xx response, status code 200
    and an array), [fetchTasks] returns the converted server records, the
    stored collection becomes exactly those records (nothing of the old
    collection survives), a later read gives back what was returned, the
    queue is untouched and one [GET] was issued. *)
Theorem fetchTasks_success_replaces_store e w r l :
  truthy (getToken e) = true ->
  next_reply e w = Resolved r -> ok r = true ->
  json r = Some (mkApiResponse 200 (TaskList l)) ->
  exists w',
    fetchTasks e w = (Ok (map (convertBackendTask (Date_parse e)) l), w') /\
    tasks_item w' = Some (map (convertBackendTask (Date_parse e)) l) /\
    stored_tasks e w' = map (convertBackendTask (Date_parse e)) l /\
    length (stored_tasks e w') = length l /\
    actions_item w' = actions_item w /\
    requests w' = requests w ++ [mkRequest GET apiUrl (default "" (getToken e)) None].
Proof.
  intros T N O J.
  destruct (fetchTasks_success_run e w r l T N O J) as (w' & F & HS & HT & HA & HR).
  exists w'. rewrite HS, length_map. auto 10.
Qed.

Lemma Z_to_string_nonempty n : truthy (Some (Js.Z_to_string n)) = true.
Proof.
  unfold Js.Z_to_string. destruct (n <? 0) eqn:E; [reflexivity |].
  apply Z.ltb_ge in E.
  destruct (JsFacts.digits_first_char n E) as (d & s & _ & ->). reflexivity.
Qed.

(** X2. [convertBackendTask] normalizes a server record: [completed]
    becomes a boolean (true only when the record says true), [userId] is
    never empty, [dueDate] is derived from [due_date]; converting twice, or
    reading the converted record back from the store, changes nothing. *)
Theorem convertBackendTask_normalizes parse t :
  (completed (convertBackendTask parse t) = Some true <-> completed t = Some true) /\
  (completed (convertBackendTask parse t) = Some false <-> completed t <> Some true) /\
  truthy (userId (convertBackendTask parse t)) = true /\
  dueDate (convertBackendTask parse t) = date_if_truthy parse (due_date t) /\
  convertBackendTask parse (convertBackendTask parse t) = convertBackendTask parse t /\
  revive parse (convertBackendTask parse t) = convertBackendTask parse t.
Proof.
  split; [| split; [| split; [| split; [| split]]]]; try reflexivity.
  - cbn. destruct (completed t) as [[] |]; cbn; split; congruence.
  - cbn. destruct (completed t) as [[] |]; cbn; split; congruence.
  - cbn. unfold backend_userId.
    destruct (user t) as [[[n |] ?] |]; try reflexivity. apply Z_to_string_nonempty.
Qed.

(** X3. When the task is stored and the remote delete succeeds (a token, a
    2xx response, status code 200), [deleteTask] returns normally, the task
    found is gone from the stored collection, nothing is queued, and the
    only request is a [DELETE] of the task's URL. *)
Theorem deleteTask_success_removes_without_queueing e w tid i t r b :
  findIndex tid (stored_tasks e w) = Some (i, t) ->
  truthy (getToken e) = true ->
  next_reply e w = Resolved r -> ok r = true -> json r = Some b ->
  status_code b = 200 ->
  exists w',
    deleteTask tid e w = (Ok tt, w') /\
    stored_tasks e w' = take i (stored_tasks e w) ++ drop (S i) (stored_tasks e w) /\
    length (stored_tasks e w') = pred (length (stored_tasks e w)) /\
    actions_item w' = actions_item w /\
    requests w' = requests w
                  ++ [mkRequest DELETE (task_url tid) (default "" (getToken e)) None].
Proof.
  intros F T N O J C. unfold deleteTask, bind. rewrite getStoredTasks_run, F.
  unfold try_catch, deleteTask_remote, bind.
  rewrite require_token_run, T, fetch_run, N, O. cbn.
  unfold response_json. rewrite J. cbn. rewrite C. cbn.
  eexists. split; [reflexivity |].
  assert (E : stored_tasks e
                (set_tasks_item (Some (splice1 i (stored_tasks e w)))
                   (push_request
                      (mkRequest DELETE (task_url tid) (default "" (getToken e)) None) w))
              = take i (stored_tasks e w) ++ drop (S i) (stored_tasks e w)).
  { unfold stored_tasks at 1. cbn. unfold id, splice1.
    rewrite delete_take_drop, map_app, <- firstn_map, <- skipn_map.
    rewrite revive_stored_tasks. reflexivity. }
  split; [exact E |]. split; [| split; reflexivity].
  rewrite E. apply list_find_Some in F as (L & _ & _).
  apply lookup_lt_Some in L.
  rewrite length_app, length_take, length_drop. lia.
Qed.

Lemma map_insert {A B} (f : A -> B) (l : list A) i x :
  map f (<[i := x]> l) = <[i := f x]> (map f l).
Proof.
  revert i. induction l as [| a l IH]; intros [| i]; cbn; try reflexivity.
  rewrite IH. reflexivity.
Qed.

Lemma stored_tasks_after_insert e w w0 i t :
  tasks_item w0 = Some (<[i := t]> (stored_tasks e w)) ->
  stored_tasks e w0 = <[i := revive (Date_parse e) t]> (stored_tasks e w).
Proof.
  intros E. unfold stored_tasks at 1. rewrite E. cbn. unfold id.
  rewrite map_insert, revive_stored_tasks. reflexivity.
Qed.

(** X4. When the task is stored and the remote update succeeds with the
    server's record, [updateTask] returns that record converted, puts it in
    the place of the old one (the other tasks keep their places), queues
    nothing and has issued one [PUT] carrying the update. *)
Theorem updateTask_success_stores_server_record e w tid updateData i old r b bt :
  findIndex tid (stored_tasks e w) = Some (i, old) ->
  truthy (getToken e) = true ->
  next_reply e w = Resolved r -> ok r = true -> json r = Some b ->
  status_code b = 200 -> response_data b = OneTask bt ->
  exists w',
    updateTask tid updateData e w = (Ok (convertBackendTask (Date_parse e) bt), w') /\
    stored_tasks e w'
      = <[i := convertBackendTask (Date_parse e) bt]> (stored_tasks e w) /\
    length (stored_tasks e w') = length (stored_tasks e w) /\
    actions_item w' = actions_item w /\
    requests w' = requests w
                  ++ [mkRequest PUT (task_url tid) (default "" (getToken e))
                                (Some (UpdateData updateData))].
Proof.
  intros F T N O J C D. unfold updateTask, bind. rewrite getStoredTasks_run, F.
  unfold ask at 1, try_catch, updateTask_remote, bind.
  rewrite require_token_run, T, fetch_run, N, O. cbn.
  unfold response_json. rewrite J. cbn. rewrite C, D. cbn.
  eexists. split; [reflexivity |].
  match goal with
  | |- stored_tasks e ?w0 = _ /\ _ =>
      assert (E : stored_tasks e w0
                  = <[i := convertBackendTask (Date_parse e) bt]> (stored_tasks e w))
        by (rewrite (stored_tasks_after_insert e w w0 i _ eq_refl); reflexivity)
  end.
  split; [exact E |]. split; [| split; reflexivity].
  rewrite E. apply length_insert.
Qed.

(** The remote update, when it throws, has only recorded its request. *)
Lemma updateTask_remote_throws tasks i tid updateData e w err w1 :
  updateTask_remote tasks i tid updateData e w = (Throw err, w1) ->
  tasks_item w1 = tasks_item w /\ actions_item w1 = actions_item w.
Proof.
  unfold updateTask_remote, bind. rewrite require_token_run.
  destruct (truthy (getToken e)); [| intros [= <- <-]; auto].
  rewrite fetch_run.
  destruct (next_reply e w) as [| [[] s [[c d] |]]]; cbn;
    try solve [intros [= <- <-]; cbn; auto].
  destruct (c =? 200); cbn; try solve [intros [= <- <-]; cbn; auto].
  destruct d; cbn; intros [= <- <-]; cbn; auto.
Qed.

(** X5. When the task is stored and the remote update fails, [updateTask]
    returns the merged task with [needsSync] set, stores it in the place of
    the old one and appends one [update] action carrying the update.  The
    merge never touches [due_date]: read back from the store, the task has
    the due date it had before, whatever [dueDate] the update carried. *)
Theorem updateTask_offline_merges_and_queues e w tid updateData i old err w1 :
  findIndex tid (stored_tasks e w) = Some (i, old) ->
  updateTask_remote (stored_tasks e w) i tid updateData e w = (Throw err, w1) ->
  exists w' a kept,
    updateTask tid updateData e w
      = (Ok (merge_update (Date_parse e) old updateData), w') /\
    needsSync (merge_update (Date_parse e) old updateData) = Some true /\
    task_id (merge_update (Date_parse e) old updateData) = task_id old /\
    isLocal (merge_update (Date_parse e) old updateData) = isLocal old /\
    stored_tasks e w' = <[i := kept]> (stored_tasks e w) /\
    title kept = title (merge_update (Date_parse e) old updateData) /\
    completed kept = completed (merge_update (Date_parse e) old updateData) /\
    due_date kept = due_date old /\ dueDate kept = dueDate old /\
    queue w' = queue w ++ [a] /\
    type a = update /\ taskId a = tid /\ data a = Some (UpdateData updateData).
Proof.
  intros F R.
  pose proof (updateTask_remote_throws _ _ _ _ _ _ _ _ R) as (HT & HA).
  unfold updateTask, bind. rewrite getStoredTasks_run, F.
  unfold ask at 1, try_catch. rewrite R.
  unfold updateTask_offline, bind. rewrite storeTasks_run, generateId_run.
  cbn [Date_now bind ask get modify ret]. rewrite storeOfflineAction_run.
  apply list_find_Some in F as (L & _ & _).
  eexists _, _, (revive (Date_parse e) (merge_update (Date_parse e) old updateData)).
  split; [reflexivity |]. do 3 (split; [reflexivity |]).
  split; [apply stored_tasks_after_insert; reflexivity |].
  do 3 (split; [reflexivity |]).
  split.
  { cbn. symmetry. apply (stored_tasks_revived e w).
    eapply list_elem_of_lookup_2, L. }
  split; [unfold queue at 1 2; cbn; rewrite HA; reflexivity |].
  cbn. auto.
Qed.

Lemma syncOfflineChanges_returns_early e w :
  truthy (getToken e) = false \/ queue w = [] ->
  syncOfflineChanges e w = (Ok tt, w).
Proof.
  intros H. unfold syncOfflineChanges. unfold bind at 1.
  rewrite getOfflineActions_run. unfold bind at 1, ask at 1.
  destruct H as [-> | ->]; [reflexivity |].
  destruct (truthy (getToken e)); reflexivity.
Qed.

(** X6. Without a token, or with an empty queue, [syncOfflineChanges]
    returns at once and changes nothing (no request, no write); so a sync
    that follows a completed sync, in any environment, changes nothing. *)
Theorem sync_without_work_changes_nothing e w :
  (truthy (getToken e) = false \/ queue w = [] ->
   syncOfflineChanges e w = (Ok tt, w)) /\
  (truthy (getToken e) = true -> queue w <> [] ->
   forall e2,
     syncOfflineChanges e2 (snd (syncOfflineChanges e w))
     = (Ok tt, snd (syncOfflineChanges e w))).
Proof.
  split; [apply syncOfflineChanges_returns_early |].
  intros T Q e2. destruct (syncOfflineChanges_run e w T Q) as (w' & -> & A & _).
  apply syncOfflineChanges_returns_early. right. unfold queue. cbn. rewrite A.
  reflexivity.
Qed.

Lemma next_reply_after_push e w r :
  next_reply e (push_request r w) = replies e (S (length (requests w))).
Proof.
  unfold next_reply. cbn. rewrite length_app. cbn. f_equal. lia.
Qed.

(** X7. When the remote create succeeds (status code 200 or 201 with the
    created record, whose title and due date are strings) and the refresh
    that follows succeeds, [createTask] returns the first refreshed record
    with that title and that due date: a server record, taken from the
    stored collection.  The provisional task is not stored and nothing is
    queued. *)
Theorem createTask_success_returns_server_record
    e w taskData current r1 b1 created ct cd r2 l found :
  getCurrentUser e = Some current ->
  truthy (getToken e) = true ->
  replies e (length (requests w)) = Resolved r1 ->
  ok r1 = true -> json r1 = Some b1 ->
  status_code b1 = 200 \/ status_code b1 = 201 ->
  response_data b1 = OneTask created ->
  title created = Some ct -> due_date created = Some cd ->
  replies e (S (length (requests w))) = Resolved r2 ->
  ok r2 = true -> json r2 = Some (mkApiResponse 200 (TaskList l)) ->
  List.find (fun t => bool_decide (title t = Some ct)
                      && bool_decide (due_date t = Some cd))
            (map (convertBackendTask (Date_parse e)) l) = Some found ->
  exists w',
    createTask taskData e w = (Ok found, w') /\
    found ∈ stored_tasks e w' /\
    title found = Some ct /\ due_date found = Some cd /\
    stored_tasks e w' = map (convertBackendTask (Date_parse e)) l /\
    actions_item w' = actions_item w /\
    requests w' = requests w
      ++ [mkRequest POST apiUrl (default "" (getToken e)) (Some (CreateData taskData));
          mkRequest GET apiUrl (default "" (getToken e)) None].
Proof.
  intros U T N1 O1 J1 C1 D1 Ct Cd N2 O2 J2 F.
  unfold createTask. unfold bind at 1, ask at 1. rewrite U.
  unfold bind at 1. rewrite generateId_run. unfold try_catch at 1.
  unfold createTask_remote. unfold bind at 1. rewrite require_token_run, T.
  unfold bind at 1. rewrite fetch_run. unfold next_reply at 1.
  cbn [requests tick_random tick_clock]. rewrite N1, O1.
  unfold bind at 1, response_json. rewrite J1. cbn [ret].
  assert (S : (status_code b1 =? 200) || (status_code b1 =? 201) = true).
  { destruct C1 as [-> | ->]; reflexivity. }
  rewrite S, D1. unfold bind at 1, try_catch at 1. unfold bind at 1.
  match goal with
  | |- context [fetchTasks e ?w0] =>
      destruct (fetchTasks_success_run e w0 r2 l T) as (w2 & FT & HS & HT & HA & HR);
        [rewrite next_reply_after_push; exact N2 | exact O2 | exact J2 |];
      rewrite FT
  end.
  unfold find_created.
  destruct (map (convertBackendTask (Date_parse e)) l) as [| t0 rest] eqn:EL;
    [discriminate F |].
  cbn [as_object bind ret]. rewrite Ct, Cd, F. cbn.
  pose proof (find_some _ _ F) as [In M].
  apply andb_prop in M as [M1 M2].
  apply bool_decide_eq_true in M1, M2.
  exists w2. split; [reflexivity |].
  split; [rewrite HS; apply list_elem_of_In; exact In |].
  split; [exact M1 |]. split; [exact M2 |]. split; [exact HS |]. split.
  - rewrite HA. reflexivity.
  - rewrite HR. cbn. rewrite <- app_assoc. reflexivity.
Qed.

Lemma fetchTasks_rejected_run e w :
  truthy (getToken e) = true -> next_reply e w = Rejected ->
  fetchTasks e w
  = (Ok (stored_tasks e w),
     push_request (mkRequest GET apiUrl (default "" (getToken e)) None) w).
Proof.
  intros T N. unfold fetchTasks, try_catch, fetchTasks_remote, bind.
  rewrite require_token_run, T, fetch_run, N. cbn.
  rewrite getStoredTasks_run. reflexivity.
Qed.

(** X8. When the remote create succeeds (the created record having a
    title and a due date that are strings) but the refresh that follows is
    rejected, [createTask] searches the stored collection instead: it
    returns the first stored task with that title and that due date if
    there is one, and otherwise a task built from the answer whose id is the
    clock reading, without flags.  Either way the stored collection and the
    queue are left as they were: the task returned is not added to the
    store. *)
Theorem createTask_success_without_refresh
    e w taskData current r1 b1 created ct cd owner :
  getCurrentUser e = Some current ->
  truthy (getToken e) = true ->
  replies e (length (requests w)) = Resolved r1 ->
  ok r1 = true -> json r1 = Some b1 ->
  status_code b1 = 200 \/ status_code b1 = 201 ->
  response_data b1 = OneTask created ->
  title created = Some ct -> due_date created = Some cd ->
  user created = Some owner ->
  replies e (S (length (requests w))) = Rejected ->
  exists w',
    createTask taskData e w
    = (Ok match List.find (fun t => bool_decide (title t = Some ct)
                                    && bool_decide (due_date t = Some cd))
                          (stored_tasks e w) with
          | Some stale => stale
          | None =>
              mkTask (Some (time_at e (S (clock_reads w)))) (Some ct)
                     (Some false) (Some cd)
                     (date_if_truthy (Date_parse e) (Some cd))
                     (Some (mkUser (user_id owner) (auth_username current)))
                     (Some (auth_id current)) None None
          end, w') /\
    tasks_item w' = tasks_item w /\ actions_item w' = actions_item w.
Proof.
  intros U T N1 O1 J1 C1 D1 Ct Cd W N2.
  unfold createTask. unfold bind at 1, ask at 1. rewrite U.
  unfold bind at 1. rewrite generateId_run. unfold try_catch at 1.
  unfold createTask_remote. unfold bind at 1. rewrite require_token_run, T.
  unfold bind at 1. rewrite fetch_run. unfold next_reply at 1.
  cbn [requests tick_random tick_clock]. rewrite N1, O1.
  unfold bind at 1, response_json. rewrite J1. cbn [ret].
  assert (S : (status_code b1 =? 200) || (status_code b1 =? 201) = true).
  { destruct C1 as [-> | ->]; reflexivity. }
  rewrite S, D1. unfold bind at 1, try_catch at 1. unfold bind at 1.
  rewrite fetchTasks_rejected_run by (exact T || (rewrite next_reply_after_push; exact N2)).
  match goal with
  | |- context [find_created _ (stored_tasks e ?w0)] =>
      change (stored_tasks e w0) with (stored_tasks e w)
  end.
  unfold find_created.
  destruct (stored_tasks e w) as [| t0 rest] eqn:ES.
  - cbn. rewrite W, Ct, Cd. cbn. eexists. split; [reflexivity |]. split; reflexivity.
  - cbn [as_object bind ret]. rewrite Ct, Cd.
    destruct (List.find _ (t0 :: rest)) as [stale |] eqn:F.
    + cbn. eexists. split; [reflexivity |]. split; reflexivity.
    + cbn. rewrite W, Ct, Cd. cbn. eexists. split; [reflexivity |]. split; reflexivity.
Qed.

Lemma first_8_digits_range n :
  10 ^ 7 <= n -> 10 ^ 7 <= first_8_digits n < 10 ^ 8.
Proof.
  intros H. assert (N : 0 <= n) by lia. revert n N H.
  apply (JsFacts.digit_ind
           (fun n => 10 ^ 7 <= n -> 10 ^ 7 <= first_8_digits n < 10 ^ 8)).
  - intros r R H. lia.
  - intros q r Q R IH H.
    destruct (Z.lt_ge_cases (10 * q + r) (10 ^ 8)) as [S | L].
    + rewrite JsFacts.first_8_digits_small by exact S. lia.
    + rewrite JsFacts.first_8_digits_step by exact L.
      replace ((10 * q + r) / 10) with q by (apply Z.div_unique with r; lia).
      apply IH. lia.
Qed.

(** X9. For every clock reading of at least 8 digits (any time after the
    first three hours of 1970) the provisional identifier [createTask]
    assigns is a number, never [NaN], of exactly 8 digits. *)
Theorem provisional_id_has_eight_digits e w :
  10 ^ 7 <= time_at e (clock_reads w) ->
  exists k, assigned_id e w = Some k /\ 10 ^ 7 <= k < 10 ^ 8.
Proof.
  intros H. exists (first_8_digits (time_at e (clock_reads w))). split.
  - unfold assigned_id. rewrite generateId_run.
    apply JsFacts.localId_generated. lia.
  - apply first_8_digits_range, H.
Qed.

Lemma digits_underscore_inj a b r1 r2 :
  0 <= a -> 0 <= b ->
  Js.digits a +:+ String "_" r1 = Js.digits b +:+ String "_" r2 ->
  a = b /\ r1 = r2.
Proof.
  intros A B E.
  assert (AB : a = b).
  { pose proof (JsFacts.read_digits_digits a A (String "_" r1)) as Ra.
    pose proof (JsFacts.read_digits_digits b B (String "_" r2)) as Rb.
    rewrite E in Ra. rewrite Ra in Rb. exact Rb. }
  subst b. split; [reflexivity |].
  apply (inj (String.append (Js.digits a))) in E. congruence.
Qed.

(** X10. A generated id determines the clock reading and the random string
    it was built from: two calls of [generateId] (with clock readings that
    are not negative) give the same id only when both agree. *)
Theorem generateId_injective e w e' w' :
  0 <= time_at e (clock_reads w) -> 0 <= time_at e' (clock_reads w') ->
  fst (generateId e w) = fst (generateId e' w') ->
  time_at e (clock_reads w) = time_at e' (clock_reads w') /\
  random_at e (random_reads w) = random_at e' (random_reads w').
Proof.
  intros A B. rewrite !generateId_run. cbn [fst]. intros [= E].
  rewrite !JsFacts.app_empty_l in E.
  unfold Js.Z_to_string in E.
  destruct (Z.ltb_spec (time_at e (clock_reads w)) 0); [lia |].
  destruct (Z.ltb_spec (time_at e' (clock_reads w')) 0); [lia |].
  apply digits_underscore_inj; assumption.
Qed.

(** ** Requests and the session token *)

Lemma sends_same e w w' : requests w' = requests w -> sends e w w'.
Proof.
  intros E. exists []. rewrite app_nil_r. auto.
Qed.

Lemma sends_trans e w1 w2 w3 : sends e w1 w2 -> sends e w2 w3 -> sends e w1 w3.
Proof.
  intros (i1 & E1 & F1 & N1) (i2 & E2 & F2 & N2). exists (i1 ++ i2).
  split; [rewrite E2, E1, app_assoc; reflexivity |].
  split; [apply Forall_app; auto |].
  intros T. rewrite (N1 T), (N2 T). reflexivity.
Qed.

Lemma sends_push e w m u b :
  truthy (getToken e) = true ->
  sends e w (push_request (mkRequest m u (default "" (getToken e)) b) w).
Proof.
  intros T. eexists [_]. split; [reflexivity |]. split.
  - constructor; [reflexivity | constructor].
  - intros F. congruence.
Qed.

Lemma sends_fetchTasks e w : sends e w (snd (fetchTasks e w)).
Proof.
  destruct (truthy (getToken e)) eqn:T.
  - pose proof (fetchTasks_requests e w T) as R.
    eexists [_]. split; [exact R |]. split.
    + constructor; [reflexivity | constructor].
    + intros F. congruence.
  - apply sends_same. unfold fetchTasks, try_catch, fetchTasks_remote, bind.
    rewrite require_token_run, T, getStoredTasks_run. reflexivity.
Qed.

Lemma sends_createTask_remote current taskData e w :
  sends e w (snd (createTask_remote current taskData e w)).
Proof.
  unfold createTask_remote, bind. rewrite require_token_run.
  destruct (truthy (getToken e)) eqn:T; [| apply sends_same; reflexivity].
  rewrite fetch_run.
  set (w1 := push_request _ w).
  assert (P : sends e w w1) by (apply sends_push, T).
  destruct (next_reply e w) as [| [[] s [[c d] |]]]; cbn; try exact P.
  destruct ((c =? 200) || (c =? 201)); [| exact P].
  unfold bind, try_catch.
  pose proof (sends_fetchTasks e w1) as Q.
  destruct (fetchTasks_total e w1) as (l & w2 & F & _). rewrite F in Q |- *.
  cbn in Q. pose proof (sends_trans _ _ _ _ P Q) as PQ.
  pose proof (find_created_state d l e w2) as S.
  destruct (find_created d l e w2) as [[[found |] | err'] w3]; cbn in S; subst w3;
    cbn; try exact PQ;
    (eapply sends_trans; [exact PQ |]; apply sends_same);
    destruct d as [| [? ? ? ? ? [u |] ? ? ?] | l']; reflexivity.
Qed.

Lemma sends_updateTask_remote tasks i tid updateData e w :
  sends e w (snd (updateTask_remote tasks i tid updateData e w)).
Proof.
  unfold updateTask_remote, bind. rewrite require_token_run.
  destruct (truthy (getToken e)) eqn:T; [| apply sends_same; reflexivity].
  rewrite fetch_run.
  set (w1 := push_request _ w).
  assert (P : sends e w w1) by (apply sends_push, T).
  destruct (next_reply e w) as [| [[] s [[c d] |]]]; cbn; try exact P.
  destruct (c =? 200); [| exact P].
  destruct d; cbn; exact P.
Qed.

Lemma sends_deleteTask_remote tasks i tid e w :
  sends e w (snd (deleteTask_remote tasks i tid e w)).
Proof.
  unfold deleteTask_remote, bind. rewrite require_token_run.
  destruct (truthy (getToken e)) eqn:T; [| apply sends_same; reflexivity].
  rewrite fetch_run.
  set (w1 := push_request _ w).
  assert (P : sends e w w1) by (apply sends_push, T).
  destruct (next_reply e w) as [| [[] s [[c d] |]]]; cbn; try exact P.
  destruct (c =? 200); exact P.
Qed.

Lemma sends_perform op e w : sends e w (perform op e w).
Proof.
  destruct op as [taskData | tid updateData | tid | |]; cbn [perform].
  - unfold createTask. unfold bind at 1, ask at 1.
    destruct (getCurrentUser e) as [current |]; [| apply sends_same; reflexivity].
    unfold bind at 1. rewrite generateId_run. unfold try_catch.
    pose proof (sends_createTask_remote current taskData e (tick_random (tick_clock w)))
      as R.
    destruct (createTask_remote current taskData e (tick_random (tick_clock w)))
      as [[t | err] w1]; cbn in R; [exact R |].
    eapply sends_trans; [exact R |]. apply sends_same.
    unfold createTask_offline, bind. rewrite getStoredTasks_run, storeTasks_run.
    rewrite generateId_run. cbn [Date_now bind ask get modify ret].
    rewrite storeOfflineAction_run. reflexivity.
  - unfold updateTask, bind. rewrite getStoredTasks_run.
    destruct (findIndex tid (stored_tasks e w)) as [[i old] |];
      [| apply sends_same; reflexivity].
    unfold ask at 1, try_catch.
    pose proof (sends_updateTask_remote (stored_tasks e w) i tid updateData e w) as R.
    destruct (updateTask_remote (stored_tasks e w) i tid updateData e w)
      as [[t | err] w1]; cbn in R; [exact R |].
    eapply sends_trans; [exact R |]. apply sends_same.
    unfold updateTask_offline, bind. rewrite storeTasks_run, generateId_run.
    cbn [Date_now bind ask get modify ret]. rewrite storeOfflineAction_run.
    reflexivity.
  - unfold deleteTask, bind. rewrite getStoredTasks_run.
    destruct (findIndex tid (stored_tasks e w)) as [[i old] |];
      [| apply sends_same; reflexivity].
    unfold try_catch.
    pose proof (sends_deleteTask_remote (stored_tasks e w) i tid e w) as R.
    destruct (deleteTask_remote (stored_tasks e w) i tid e w)
      as [[t | err] w1]; cbn in R; [exact R |].
    eapply sends_trans; [exact R |]. apply sends_same.
    unfold deleteTask_offline, bind. rewrite storeTasks_run, generateId_run.
    cbn [Date_now bind ask get modify ret]. rewrite storeOfflineAction_run.
    reflexivity.
  - destruct (truthy (getToken e)) eqn:T.
    + destruct (decide (queue w = [])) as [Q | Q].
      * rewrite syncOfflineChanges_returns_early by auto.
        apply sends_same. reflexivity.
      * destruct (syncOfflineChanges_run e w T Q) as (w' & -> & _ & R).
        eexists. split; [exact R |]. split; [| congruence].
        apply Forall_app. split; [| constructor; [reflexivity | constructor]].
        apply Forall_forall. intros r Hr.
        apply list_elem_of_In, in_map_iff in Hr. destruct Hr as (a & <- & _).
        unfold sync_request. destruct (type a); reflexivity.
    + rewrite syncOfflineChanges_returns_early by auto.
      apply sends_same. reflexivity.
  - apply sends_fetchTasks.
Qed.

(** X11. Whatever operation runs, the request history only grows, every
    request it adds carries the session token as bearer, and without a
    token no request is sent at all. *)
Theorem every_request_carries_the_token op e w :
  exists issued,
    requests (perform op e w) = requests w ++ issued /\
    Forall (fun r => bearer r = default "" (getToken e)) issued /\
    (truthy (getToken e) = false -> issued = []).
Proof.
  destruct (sends_perform op e w) as (issued & E & F & N).
  exists issued. split; [exact E |]. split; [exact F | exact N].
Qed.

(** ** The task list screen and the task card *)

Lemma status_of_active parse offset now t :
  is_set (completed t) = false ->
  (TasksScreen.getTaskStatus parse offset now t = "upcoming" /\
   String.eqb (TasksScreen.getTaskStatus parse offset now t) "past" = false) \/
  (TasksScreen.getTaskStatus parse offset now t = "past" /\
   String.eqb (TasksScreen.getTaskStatus parse offset now t) "upcoming" = false).
Proof.
  intros C. unfold TasksScreen.getTaskStatus. rewrite C.
  destruct (due_date_of parse t) as [d |]; [| left; split; reflexivity].
  destruct (date_ge _ _); [left | right]; split; reflexivity.
Qed.

Lemma filter_lengths_add {A} (p q r : A -> bool) (l : list A) :
  (forall x, (p x = true /\ q x = false /\ r x = true) \/
             (p x = false /\ q x = true /\ r x = true) \/
             (p x = false /\ q x = false /\ r x = false)) ->
  (length (List.filter p l) + length (List.filter q l))%nat = length (List.filter r l).
Proof.
  intros H. induction l as [| x l IH]; [reflexivity |].
  cbn. destruct (H x) as [(-> & -> & ->) | [(-> & -> & ->) | (-> & -> & ->)]];
    cbn; lia.
Qed.

(** X12. On the task list screen the three counters and the three filters
    agree: "Upcoming" and "Past" count the tasks their filters show, "Total"
    is the number of tasks the filter "all" shows, which are exactly the
    tasks that are not completed; no filter ever shows a completed task. *)
Theorem screen_counts_match_filters parse offset now tasks :
  TasksScreen.upcomingCount parse offset now tasks
  = length (TasksScreen.filteredTasks parse offset now TasksScreen.upcoming tasks) /\
  TasksScreen.pastCount parse offset now tasks
  = length (TasksScreen.filteredTasks parse offset now TasksScreen.past tasks) /\
  TasksScreen.totalActiveCount parse offset now tasks
  = length (TasksScreen.filteredTasks parse offset now TasksScreen.all tasks) /\
  TasksScreen.filteredTasks parse offset now TasksScreen.all tasks
  = List.filter (fun t => negb (is_set (completed t))) tasks /\
  (forall f t, t ∈ TasksScreen.filteredTasks parse offset now f tasks ->
               is_set (completed t) = false).
Proof.
  split; [| split; [| split; [| split]]].
  - unfold TasksScreen.upcomingCount, TasksScreen.filteredTasks. f_equal.
    apply filter_ext. intros t. cbn. destruct (is_set (completed t)); reflexivity.
  - unfold TasksScreen.pastCount, TasksScreen.filteredTasks. f_equal.
    apply filter_ext. intros t. cbn. destruct (is_set (completed t)); reflexivity.
  - unfold TasksScreen.totalActiveCount, TasksScreen.upcomingCount,
      TasksScreen.pastCount, TasksScreen.filteredTasks.
    apply filter_lengths_add. intros t. cbn.
    destruct (is_set (completed t)) eqn:C; [right; right; auto |].
    destruct (status_of_active parse offset now t C) as [[-> ->] | [-> ->]];
      [left | right; left]; auto.
  - unfold TasksScreen.filteredTasks. apply filter_ext. intros t. cbn.
    destruct (is_set (completed t)); reflexivity.
  - intros f t Ht. unfold TasksScreen.filteredTasks in Ht.
    apply list_elem_of_In, filter_In in Ht as [_ Ht].
    destruct (is_set (completed t)); [discriminate Ht | reflexivity].
Qed.

Lemma date_ge_midnight offset d now :
  date_ge (local_midnight offset (Some d)) (local_midnight offset (Some now)) = true
  <-> local_day offset now <= local_day offset d.
Proof.
  unfold date_ge, local_midnight, local_day, msPerDay. rewrite Z.leb_le. lia.
Qed.

(** X13. What the screen and the card show for a task that is not
    completed: "upcoming" when it has no due date; "past" (overdue, red)
    when its due date is invalid; and with a valid due date "upcoming"
    exactly when the due day is the current local day or a later one.  The
    card agrees with the screen, and a completed task is "completed". *)
Theorem task_status_by_due_day parse offset now t :
  (is_set (completed t) = true ->
   TasksScreen.getTaskStatus parse offset now t = "completed") /\
  TaskCard.getTaskStatus parse offset now t
  = TasksScreen.getTaskStatus parse offset now t /\
  (is_set (completed t) = false ->
   (due_date_of parse t = None ->
    TasksScreen.getTaskStatus parse offset now t = "upcoming") /\
   (due_date_of parse t = Some None ->
    TasksScreen.getTaskStatus parse offset now t = "past" /\
    TaskCard.isOverdue parse offset now t = true /\
    TaskCard.getStatusColor parse offset now t = "#ef4444") /\
   (forall d, due_date_of parse t = Some (Some d) ->
      (TasksScreen.getTaskStatus parse offset now t = "upcoming"
       <-> local_day offset now <= local_day offset d) /\
      (TaskCard.isOverdue parse offset now t = true
       <-> local_day offset d < local_day offset now))).
Proof.
  split; [| split; [reflexivity |]].
  - intros C. unfold TasksScreen.getTaskStatus. rewrite C. reflexivity.
  - intros C. split; [| split].
    + intros D. unfold TasksScreen.getTaskStatus. rewrite C, D. reflexivity.
    + intros D. unfold TaskCard.getStatusColor, TaskCard.isOverdue,
        TaskCard.getTaskStatus, TasksScreen.getTaskStatus.
      rewrite C, D. cbn. auto.
    + intros d D. unfold TaskCard.isOverdue, TaskCard.getTaskStatus,
        TasksScreen.getTaskStatus.
      rewrite C, D. cbn [negb andb].
      pose proof (date_ge_midnight offset d now) as G.
      destruct (date_ge (local_midnight offset (Some d))
                        (local_midnight offset (Some now))); cbn.
      * split; [tauto |]. split; [discriminate |]. intros L.
        assert (local_day offset now <= local_day offset d) by (apply G; reflexivity).
        lia.
      * split; [split; [discriminate |] | split; [| reflexivity]].
        -- intros L. apply G in L. discriminate L.
        -- intros _. destruct (Z.lt_ge_cases (local_day offset d) (local_day offset now))
             as [L | L]; [exact L |]. apply G in L. discriminate L.
Qed.

(** X14. A task [getDueTasks] reports as due is, for the rest of that local
    day, shown as "upcoming" by the screen (it is in the list of the
    "upcoming" filter) and never as overdue by its card. *)
Theorem due_task_is_upcoming_not_overdue e w due t now' :
  fst (getDueTasks e w) = Ok due -> t ∈ due ->
  local_day (utc_offset e) now' = local_day (utc_offset e) (time_at e (clock_reads w)) ->
  TasksScreen.getTaskStatus (Date_parse e) (utc_offset e) now' t = "upcoming" /\
  TaskCard.isOverdue (Date_parse e) (utc_offset e) now' t = false /\
  t ∈ TasksScreen.filteredTasks (Date_parse e) (utc_offset e) now'
        TasksScreen.upcoming (stored_tasks e w).
Proof.
  rewrite getDueTasks_run. cbn [fst]. intros [= <-] Ht Day.
  apply list_elem_of_In, filter_In in Ht as [Hs Hd].
  apply list_elem_of_In in Hs.
  apply due_today_spec in Hd; [| apply (stored_tasks_revived e w t Hs)].
  destruct Hd as (C & d & D & M).
  apply same_midnight_same_day in M.
  assert (A : is_set (completed t) = false) by (rewrite C; reflexivity).
  assert (S : TasksScreen.getTaskStatus (Date_parse e) (utc_offset e) now' t = "upcoming").
  { unfold TasksScreen.getTaskStatus, due_date_of. rewrite A, D.
    assert (G : date_ge (local_midnight (utc_offset e) (Some d))
                        (local_midnight (utc_offset e) (Some now')) = true)
      by (apply date_ge_midnight; lia).
    rewrite G. reflexivity. }
  split; [exact S |]. split.
  - unfold TaskCard.isOverdue.
    change (TaskCard.getTaskStatus (Date_parse e) (utc_offset e) now' t)
      with (TasksScreen.getTaskStatus (Date_parse e) (utc_offset e) now' t).
    rewrite S. rewrite andb_false_r. reflexivity.
  - unfold TasksScreen.filteredTasks. apply list_elem_of_In, filter_In.
    split; [apply list_elem_of_In, Hs |]. rewrite A, S. reflexivity.
Qed.

Lemma fetchTasks_when_rejected e w :
  (forall n, replies e n = Rejected) ->
  exists w', fetchTasks e w = (Ok (stored_tasks e w), w') /\
             tasks_item w' = tasks_item w /\ actions_item w' = actions_item w.
Proof.
  intros Off.
  destruct (get_fails_throws e w (network_error e w (Off _))) as (err & w1 & R).
  unfold fetchTasks, try_catch. rewrite R.
  apply fetchTasks_remote_throws in R as (HT & HA & _).
  rewrite getStoredTasks_run. exists w1. unfold stored_tasks. rewrite HT. auto.
Qed.

Lemma updateTask_remote_when_rejected tasks i tid updateData e w :
  (forall n, replies e n = Rejected) ->
  exists err w1, updateTask_remote tasks i tid updateData e w = (Throw err, w1).
Proof.
  intros Off. unfold updateTask_remote, bind. rewrite require_token_run.
  destruct (truthy (getToken e)); [| eauto].
  rewrite fetch_run. unfold next_reply. rewrite Off. cbn. eauto.
Qed.

Lemma updateTask_offline_run e w tid updateData i old err w1 :
  findIndex tid (stored_tasks e w) = Some (i, old) ->
  updateTask_remote (stored_tasks e w) i tid updateData e w = (Throw err, w1) ->
  exists w' a,
    updateTask tid updateData e w
      = (Ok (merge_update (Date_parse e) old updateData), w') /\
    tasks_item w'
      = Some (<[i := merge_update (Date_parse e) old updateData]> (stored_tasks e w)) /\
    actions_item w' = Some (queue w ++ [a]).
Proof.
  intros F R.
  pose proof (updateTask_remote_throws _ _ _ _ _ _ _ _ R) as (HT & HA).
  unfold updateTask, bind. rewrite getStoredTasks_run, F.
  unfold ask at 1, try_catch. rewrite R.
  unfold updateTask_offline, bind. rewrite storeTasks_run, generateId_run.
  cbn [Date_now bind ask get modify ret]. rewrite storeOfflineAction_run.
  eexists _, _. split; [reflexivity |]. split; [reflexivity |].
  cbn. unfold queue. cbn. rewrite HA. reflexivity.
Qed.

(** X15. Toggling completion on the screen while the network rejects every
    request: when the task is stored, no alert is raised and the list shown
    afterwards is the stored list with that task marked as asked and
    flagged [needsSync], one [update] action being queued; when the task is
    not stored, the alert is raised, the list stays and nothing is
    written. *)
Theorem toggle_complete_while_offline e w tid done shown :
  (forall n, replies e n = Rejected) ->
  (forall i old,
     findIndex tid (stored_tasks e w) = Some (i, old) ->
     exists w' kept,
       TasksScreen.handleToggleComplete tid done shown e w
       = (Ok (<[i := kept]> (stored_tasks e w), None), w') /\
       completed kept = Some done /\ needsSync kept = Some true /\
       task_id kept = task_id old /\ title kept = title old /\
       length (queue w') = S (length (queue w))) /\
  (findIndex tid (stored_tasks e w) = None ->
   exists w',
     TasksScreen.handleToggleComplete tid done shown e w
     = (Ok (shown, Some "Failed to update task. Please try again."), w') /\
     tasks_item w' = tasks_item w /\ actions_item w' = actions_item w).
Proof.
  intros Off. split.
  - intros i old F.
    destruct (updateTask_remote_when_rejected (stored_tasks e w) i tid
                (mkUpdateTaskData None (Some done) None) e w Off) as (err & w1 & R).
    destruct (updateTask_offline_run e w tid _ i old err w1 F R)
      as (w2 & a & U & UT & UA).
    destruct (fetchTasks_when_rejected e w2 Off) as (w3 & FT & FS & FA).
    unfold TasksScreen.handleToggleComplete, try_catch at 1. unfold bind at 1.
    rewrite U. unfold TasksScreen.loadTasks, try_catch, bind. rewrite FT.
    rewrite (stored_tasks_after_insert e w w2 i _ UT).
    eexists _, _. split; [reflexivity |].
    split; [reflexivity |]. split; [reflexivity |]. split; [reflexivity |].
    split; [reflexivity |].
    unfold queue at 1. rewrite FA, UA. cbn. rewrite length_app. cbn. lia.
  - intros F. unfold TasksScreen.handleToggleComplete, try_catch, bind.
    unfold updateTask, bind. rewrite getStoredTasks_run, F. cbn.
    eexists. split; [reflexivity |]. auto.
Qed.

(** ** The session service *)

(** X16. [login] returns exactly on a 2xx answer whose body has status
    code 200 and a token: on such an answer it returns the token and a user
    with id "1" named after the credentials, and stores both, so that
    [getToken] and [getCurrentUser] read them back; and if it returns, the
    answer was of that form.  On any other answer it throws and leaves the
    session as it was: a rejected request gives the network message when
    its message says so, a body that does not parse gives the server
    message, and a non-2xx answer, an error status code and a body without
    [data] all give "Invalid username or password". *)
Theorem login_stores_only_on_success credentials s :
  let user := AuthService.mkUser "1" (AuthService.login_username credentials)
                                 (AuthService.login_username credentials) in
  let success token :=
    AuthService.Resolved true (Some (AuthService.mkAuthResponse 200 (Some token))) in
  let invalid := Throw (JsError "Invalid username or password") in
  (forall token,
     AuthService.login credentials (success token) s
     = (Ok (token, user), AuthService.mkSession (Some token) (Some user)) /\
     AuthService.getToken (snd (AuthService.login credentials (success token) s))
     = Some token /\
     AuthService.getCurrentUser (snd (AuthService.login credentials (success token) s))
     = Some user /\
     AuthService.isAuthenticated (snd (AuthService.login credentials (success token) s))
     = true) /\
  (forall o result s',
     AuthService.login credentials o s = (Ok result, s') ->
     exists token, o = success token /\ result = (token, user)) /\
  (forall o,
     (forall token, o <> success token) ->
     exists message, AuthService.login credentials o s = (Throw (JsError message), s)) /\
  (forall m,
     AuthService.login credentials (AuthService.Rejected m) s
     = (if AuthService.includes "Network request failed" m
        then Throw (JsError
               "Network connection failed. Please check your internet connection.")
        else invalid, s)) /\
  (forall json,
     AuthService.login credentials (AuthService.Resolved false json) s = (invalid, s)) /\
  AuthService.login credentials (AuthService.Resolved true None) s
  = (Throw (JsError "Server response error. Please try again."), s) /\
  (forall code token,
     code <> 200 ->
     AuthService.login credentials
       (AuthService.Resolved true (Some (AuthService.mkAuthResponse code token))) s
     = (invalid, s)) /\
  AuthService.login credentials
    (AuthService.Resolved true (Some (AuthService.mkAuthResponse 200 None))) s
  = (invalid, s).
Proof.
  intros user success invalid.
  split; [intros token; repeat split |].
  split.
  { intros o result s'. unfold AuthService.login, AuthService.login_attempt.
    destruct o as [m | [] [[c [token |]] |]]; cbn; try discriminate.
    - destruct (Z.eqb_spec c 200) as [-> | N]; cbn; [| discriminate].
      intros [= <- _]. exists token. split; reflexivity.
    - destruct (c =? 200); discriminate. }
  split.
  { intros o N. unfold AuthService.login, AuthService.login_attempt.
    destruct o as [m | [] [[c [token |]] |]]; cbn; eauto.
    - destruct (AuthService.includes "Network request failed" m); eauto.
    - destruct (Z.eqb_spec c 200) as [-> | N']; cbn; eauto.
      contradiction (N token). reflexivity.
    - destruct (c =? 200); cbn; eauto. }
  split.
  { intros m. unfold AuthService.login. cbn.
    destruct (AuthService.includes "Network request failed" m); reflexivity. }
  split; [intros json; reflexivity |]. split; [reflexivity |].
  split; [| reflexivity].
  intros code token N. unfold AuthService.login, AuthService.login_attempt. cbn.
  destruct (Z.eqb_spec code 200) as [E | _]; [contradiction | reflexivity].
Qed.

(** X17. After [logout], from any session, nobody is authenticated and no
    user is stored.  The task service over that session then sends no
    request whatever operation runs, [createTask] throws the authentication
    error, and [syncOfflineChanges] returns at once: the queue is kept as it
    is, not replayed and not lost.  The logout request itself was sent only
    if there was a token. *)
Theorem logout_ends_the_session s e w :
  let out := with_session (snd (AuthService.logout s)) e in
  fst (AuthService.logout s)
  = (if truthy (AuthService.getToken s) then AuthService.getToken s else None) /\
  AuthService.isAuthenticated (snd (AuthService.logout s)) = false /\
  AuthService.getCurrentUser (snd (AuthService.logout s)) = None /\
  (forall op, requests (perform op out w) = requests w) /\
  (forall taskData, createTask taskData out w = (Throw AuthenticationRequired, w)) /\
  syncOfflineChanges out w = (Ok tt, w).
Proof.
  intros out. split; [reflexivity |]. split; [reflexivity |]. split; [reflexivity |].
  split; [| split].
  - intros op. destruct (sends_perform op out w) as (issued & E & _ & N).
    rewrite E, (N eq_refl), app_nil_r. reflexivity.
  - intros taskData. reflexivity.
  - apply syncOfflineChanges_returns_early. left. reflexivity.
Qed.

(** X18. Whoever logs in, a task created afterwards that falls back to the
    offline path is attributed to user id 1: its [user] is
    [{id: 1, username}] with the login name, and its [userId] is "1". *)
Theorem offline_task_after_login_is_owned_by_user_1
    credentials token s e w taskData err w1 :
  let session :=
    snd (AuthService.login credentials
           (AuthService.Resolved true
              (Some (AuthService.mkAuthResponse 200 (Some token)))) s) in
  createTask_remote (mkAuthUser "1" (AuthService.login_username credentials))
                    taskData (with_session session e)
                    (tick_random (tick_clock w)) = (Throw err, w1) ->
  exists t w',
    createTask taskData (with_session session e) w = (Ok t, w') /\
    user t = Some (mkUser (Some 1) (AuthService.login_username credentials)) /\
    userId t = Some "1" /\ isLocal t = Some true.
Proof.
  intros session R. unfold createTask. unfold bind at 1, ask at 1.
  change (getCurrentUser (with_session session e))
    with (Some (mkAuthUser "1" (AuthService.login_username credentials))).
  unfold bind at 1. rewrite generateId_run. unfold try_catch. rewrite R.
  unfold createTask_offline, bind. rewrite getStoredTasks_run, storeTasks_run.
  rewrite generateId_run. cbn [Date_now bind ask get modify ret].
  rewrite storeOfflineAction_run.
  eexists _, _. split; [reflexivity |]. cbn. auto.
Qed.

(** ** The notification service *)

Lemma set_badge_keeps n dev s :
  NotificationService.lastNotificationCheck (NotificationService.set_badge n dev s)
  = NotificationService.lastNotificationCheck s /\
  NotificationService.scheduled (NotificationService.set_badge n dev s)
  = NotificationService.scheduled s.
Proof.
  unfold NotificationService.set_badge.
  destruct (NotificationService.badge_rejects dev); split; reflexivity.
Qed.

(** What one due-task check does, from the list [getDueTasks] returns. *)
Lemma checkDueTasksAndNotify_run dev e w s :
  let due := List.filter
               (due_today (Date_parse e) (utc_offset e)
                  (local_midnight (utc_offset e) (Some (time_at e (clock_reads w)))))
               (stored_tasks e w) in
  let after := NotificationService.checkDueTasksAndNotify dev e (w, s) in
  NotificationService.lastNotificationCheck (snd after)
  = NotificationService.lastNotificationCheck s /\
  tasks_item (fst after) = tasks_item w /\
  actions_item (fst after) = actions_item w /\
  requests (fst after) = requests w /\
  NotificationService.scheduled (snd after)
  = NotificationService.scheduled s
    ++ (if (0 <? length due)%nat && negb (NotificationService.schedule_rejects dev)
        then [NotificationService.mkNotification
                (NotificationService.due_title due)
                (NotificationService.due_body due)
                (time_at e (S (clock_reads w)))]
        else []) /\
  (String.eqb (NotificationService.OS dev) "ios" = true ->
   NotificationService.badge_rejects dev = false ->
   NotificationService.badge (snd after) = Some (Z.of_nat (length due))).
Proof.
  intros due after. subst after. unfold NotificationService.checkDueTasksAndNotify.
  rewrite getDueTasks_run. fold due.
  destruct (0 <? length due)%nat eqn:L.
  - unfold NotificationService.scheduleImmediateNotification.
    destruct (NotificationService.schedule_rejects dev);
      destruct (String.eqb (NotificationService.OS dev) "ios"); cbn;
      rewrite ?app_nil_r;
      try (destruct (set_badge_keeps (Z.of_nat (length due)) dev s) as [K1 K2]);
      repeat split; try reflexivity; try discriminate;
      unfold NotificationService.set_badge;
      try (intros _ ->; reflexivity);
      destruct (NotificationService.badge_rejects dev); reflexivity.
  - apply Nat.ltb_ge in L. assert (Z : length due = 0%nat) by lia.
    rewrite Z.
    destruct (String.eqb (NotificationService.OS dev) "ios"); cbn;
      rewrite ?app_nil_r; repeat split; try reflexivity; try discriminate;
      unfold NotificationService.set_badge;
      try (intros _ ->; reflexivity);
      destruct (NotificationService.badge_rejects dev); reflexivity.
Qed.


Lemma handleAppBecameActive_skips dev e w s last :
  NotificationService.lastNotificationCheck s = Some (Some last) ->
  time_at e (clock_reads w) - last < NotificationService.cooldown ->
  NotificationService.handleAppBecameActive dev e (w, s) = (tick_clock w, s).
Proof.
  intros L C. unfold NotificationService.handleAppBecameActive. rewrite L.
  unfold date_gt. destruct (Z.ltb_spec (time_at e (clock_reads w)
                                         - NotificationService.cooldown) last);
    [reflexivity | lia].
Qed.

(** X20. The five-minute cooldown of [handleAppBecameActive]: within five
    minutes of the last check an activation only reads the clock, with no
    check, no notification and no change of state; the first activation of
    a service records its clock reading as the last check, so any
    activation in the following five minutes does nothing.
    [forceCheckDueTasks] clears the last check and does not set it again,
    so the activation that follows it always checks. *)
Theorem activation_respects_cooldown dev e w s :
  let now := time_at e (clock_reads w) in
  let first := NotificationService.handleAppBecameActive dev e (w, s) in
  (forall last,
     NotificationService.lastNotificationCheck s = Some (Some last) ->
     now - last < NotificationService.cooldown ->
     first = (tick_clock w, s)) /\
  (NotificationService.lastNotificationCheck s = None ->
   NotificationService.lastNotificationCheck (snd first) = Some (Some now) /\
   forall dev2 e2,
     time_at e2 (clock_reads (fst first)) - now < NotificationService.cooldown ->
     NotificationService.handleAppBecameActive dev2 e2 (fst first, snd first)
     = (tick_clock (fst first), snd first)) /\
  NotificationService.lastNotificationCheck
    (snd (NotificationService.forceCheckDueTasks dev e (w, s))) = None.
Proof.
  intros now first. split; [| split].
  - intros last L C. apply (handleAppBecameActive_skips dev e w s last L C).
  - intros L.
    assert (K : NotificationService.lastNotificationCheck (snd first)
                = Some (Some now)).
    { subst first. unfold NotificationService.handleAppBecameActive. rewrite L.
      match goal with
      | |- context [NotificationService.checkDueTasksAndNotify dev e (?w0, ?s0)] =>
          destruct (checkDueTasksAndNotify_run dev e w0 s0) as (K & _)
      end.
      rewrite K. reflexivity. }
    split; [exact K |]. intros dev2 e2 C.
    apply (handleAppBecameActive_skips dev2 e2 (fst first) (snd first) now K C).
  - unfold NotificationService.forceCheckDueTasks.
    match goal with
    | |- context [NotificationService.checkDueTasksAndNotify dev e (?w0, ?s0)] =>
        destruct (checkDueTasksAndNotify_run dev e w0 s0) as (K & _)
    end.
    rewrite K. reflexivity.
Qed.

(** ** How the queue changes *)

Lemma updateTask_remote_queue tasks i tid updateData e w :
  actions_item (snd (updateTask_remote tasks i tid updateData e w)) = actions_item w.
Proof.
  unfold updateTask_remote, bind. rewrite require_token_run.
  destruct (truthy (getToken e)); [| reflexivity].
  rewrite fetch_run.
  destruct (next_reply e w) as [| [[] s [[c d] |]]]; cbn; try reflexivity.
  destruct (c =? 200); [| reflexivity].
  destruct d; reflexivity.
Qed.

Lemma deleteTask_remote_queue tasks i tid e w :
  actions_item (snd (deleteTask_remote tasks i tid e w)) = actions_item w.
Proof.
  destruct (deleteTask_remote_effect tasks i tid e w)
    as [(w' & -> & _ & A) | (err & w1 & -> & _ & A)]; exact A.
Qed.

(** X21. How each operation changes the queue: [fetchTasks] never touches
    it; [createTask], [updateTask] and [deleteTask] leave it as it is or
    append exactly one action of their own kind at its end (with the
    payload and target they were called with), never dropping or reordering
    what is queued; [syncOfflineChanges] leaves it as it is or empties it. *)
Theorem queue_only_grows_until_sync op e w :
  match op with
  | FetchTasks => queue (perform op e w) = queue w
  | SyncOfflineChanges =>
      queue (perform op e w) = queue w \/ queue (perform op e w) = []
  | CreateTask taskData =>
      queue (perform op e w) = queue w \/
      exists a, queue (perform op e w) = queue w ++ [a] /\
                type a = create /\ data a = Some (CreateData taskData)
  | UpdateTask tid updateData =>
      queue (perform op e w) = queue w \/
      exists a, queue (perform op e w) = queue w ++ [a] /\
                type a = update /\ taskId a = tid /\
                data a = Some (UpdateData updateData)
  | DeleteTask tid =>
      queue (perform op e w) = queue w \/
      exists a, queue (perform op e w) = queue w ++ [a] /\
                type a = delete /\ taskId a = tid /\ data a = None
  end.
Proof.
  destruct op as [taskData | tid updateData | tid | |]; cbn [perform].
  - destruct (createTask taskData e w) as [res w'] eqn:E. cbn [snd]. revert E.
    unfold createTask. unfold bind at 1, ask at 1.
    destruct (getCurrentUser e) as [current |]; [| intros [= <- <-]; left; reflexivity].
    unfold bind at 1. rewrite generateId_run. unfold try_catch.
    pose proof (createTask_remote_queue current taskData e (tick_random (tick_clock w)))
      as Q.
    destruct (createTask_remote current taskData e (tick_random (tick_clock w)))
      as [[t | err] w1]; cbn in Q.
    + intros [= <- <-]. left. unfold queue. rewrite Q. reflexivity.
    + unfold createTask_offline, bind.
      rewrite getStoredTasks_run, storeTasks_run, generateId_run.
      cbn [Date_now bind ask get modify ret]. rewrite storeOfflineAction_run.
      intros [= <- <-]. right. eexists. split.
      { unfold queue. cbn. rewrite Q. reflexivity. }
      split; reflexivity.
  - destruct (updateTask tid updateData e w) as [res w'] eqn:E. cbn [snd]. revert E.
    unfold updateTask, bind. rewrite getStoredTasks_run.
    destruct (findIndex tid (stored_tasks e w)) as [[i old] |];
      [| intros [= <- <-]; left; reflexivity].
    unfold ask at 1, try_catch.
    pose proof (updateTask_remote_queue (stored_tasks e w) i tid updateData e w) as Q.
    destruct (updateTask_remote (stored_tasks e w) i tid updateData e w)
      as [[t | err] w1]; cbn in Q.
    + intros [= <- <-]. left. unfold queue. rewrite Q. reflexivity.
    + unfold updateTask_offline, bind. rewrite storeTasks_run, generateId_run.
      cbn [Date_now bind ask get modify ret]. rewrite storeOfflineAction_run.
      intros [= <- <-]. right. eexists. split.
      { unfold queue. cbn. rewrite Q. reflexivity. }
      repeat split; reflexivity.
  - destruct (deleteTask tid e w) as [res w'] eqn:E. cbn [snd]. revert E.
    unfold deleteTask, bind. rewrite getStoredTasks_run.
    destruct (findIndex tid (stored_tasks e w)) as [[i old] |];
      [| intros [= <- <-]; left; reflexivity].
    unfold try_catch.
    pose proof (deleteTask_remote_queue (stored_tasks e w) i tid e w) as Q.
    destruct (deleteTask_remote (stored_tasks e w) i tid e w)
      as [[t | err] w1]; cbn in Q.
    + intros [= <- <-]. left. unfold queue. rewrite Q. reflexivity.
    + unfold deleteTask_offline, bind. rewrite storeTasks_run, generateId_run.
      cbn [Date_now bind ask get modify ret]. rewrite storeOfflineAction_run.
      intros [= <- <-]. right. eexists. split.
      { unfold queue. cbn. rewrite Q. reflexivity. }
      repeat split; reflexivity.
  - destruct (truthy (getToken e)) eqn:T.
    + destruct (decide (queue w = [])) as [Q | Q].
      * left. rewrite syncOfflineChanges_returns_early by auto. reflexivity.
      * right. destruct (syncOfflineChanges_run e w T Q) as (w' & -> & A & _).
        unfold queue. cbn. rewrite A. reflexivity.
    + left. rewrite syncOfflineChanges_returns_early by auto. reflexivity.
  - unfold queue. destruct (fetchTasks_total e w) as (l & w' & -> & A).
    cbn. rewrite A. reflexivity.
Qed.

(** ** Further worked instances *)

Lemma fetchTasks_success_replaces_store_witness :
  exists w',
    fetchTasks (online [Rejected; answer (TaskList [server_rent])]) one_local_task
    = (Ok (map (convertBackendTask sample_parse) [server_rent]), w') /\
    tasks_item w' = Some (map (convertBackendTask sample_parse) [server_rent]) /\
    stored_tasks (online [Rejected; answer (TaskList [server_rent])]) w'
    = map (convertBackendTask sample_parse) [server_rent] /\
    length (stored_tasks (online [Rejected; answer (TaskList [server_rent])]) w') = 1%nat /\
    actions_item w' = actions_item one_local_task /\
    requests w' = requests one_local_task ++ [mkRequest GET apiUrl "jwt" None].
Proof.
  eapply (fetchTasks_success_replaces_store
            (online [Rejected; answer (TaskList [server_rent])]) one_local_task);
    vm_compute; reflexivity.
Defined.

Lemma deleteTask_success_removes_without_queueing_witness :
  exists w',
    deleteTask (Some 17000000) (online [Rejected; answer NoData]) one_local_task = (Ok tt, w') /\
    stored_tasks (online [Rejected; answer NoData]) w' = [] /\
    length (stored_tasks (online [Rejected; answer NoData]) w') = 0%nat /\
    actions_item w' = actions_item one_local_task /\
    requests w' = requests one_local_task
      ++ [mkRequest DELETE (task_url (Some 17000000)) "jwt" None].
Proof.
  eapply (deleteTask_success_removes_without_queueing
            (online [Rejected; answer NoData]) one_local_task (Some 17000000) 0%nat);
    vm_compute; reflexivity.
Defined.

Lemma updateTask_success_stores_server_record_witness :
  exists w',
    updateTask (Some 17000000) mark_completed
               (online [Rejected; answer (OneTask server_rent)]) one_local_task
    = (Ok (convertBackendTask sample_parse server_rent), w') /\
    stored_tasks (online [Rejected; answer (OneTask server_rent)]) w'
    = <[0%nat := convertBackendTask sample_parse server_rent]>
        (stored_tasks (online [Rejected; answer (OneTask server_rent)]) one_local_task) /\
    length (stored_tasks (online [Rejected; answer (OneTask server_rent)]) w')
    = length (stored_tasks (online [Rejected; answer (OneTask server_rent)]) one_local_task) /\
    actions_item w' = actions_item one_local_task /\
    requests w' = requests one_local_task
      ++ [mkRequest PUT (task_url (Some 17000000)) "jwt"
                    (Some (UpdateData mark_completed))].
Proof.
  eapply (updateTask_success_stores_server_record
            (online [Rejected; answer (OneTask server_rent)]) one_local_task
            (Some 17000000) mark_completed 0%nat);
    vm_compute; reflexivity.
Defined.

Lemma updateTask_offline_merges_and_queues_witness :
  exists w' a kept,
    updateTask (Some 17000000) mark_completed offline one_local_task
    = (Ok (merge_update sample_parse
             (provisional_task sample_parse admin "local_1700000000000_k3j2h1g0f" pay_rent)
             mark_completed), w') /\
    completed kept = Some true /\ due_date kept = Some "2024-01-15" /\
    queue w' = queue one_local_task ++ [a] /\ type a = update.
Proof.
  edestruct (updateTask_offline_merges_and_queues offline one_local_task
               (Some 17000000) mark_completed 0%nat)
    as (w' & a & kept & U & _ & _ & _ & _ & _ & C & D & _ & Q & K & _);
    [vm_compute; reflexivity | vm_compute; reflexivity |].
  exists w', a, kept. rewrite U, C, D. auto.
Defined.

Lemma createTask_success_returns_server_record_witness :
  exists w',
    createTask pay_rent
      (online [answer (OneTask server_rent); answer (TaskList [server_rent])]) initial
    = (Ok (convertBackendTask sample_parse server_rent), w') /\
    actions_item w' = None.
Proof.
  edestruct (createTask_success_returns_server_record
               (online [answer (OneTask server_rent); answer (TaskList [server_rent])])
               initial pay_rent admin)
    as (w' & C & _ & _ & _ & _ & A & _);
    [reflexivity | reflexivity | vm_compute; reflexivity | reflexivity | reflexivity
     | left; reflexivity | reflexivity | reflexivity | reflexivity
     | vm_compute; reflexivity | reflexivity
     | reflexivity | vm_compute; reflexivity |].
  exists w'. split; [exact C | exact A].
Defined.

Lemma createTask_success_without_refresh_witness :
  exists w',
    createTask pay_rent (online [answer (OneTask server_rent)]) initial
    = (Ok (mkTask (Some 1700000000000) (Some "Pay rent") (Some false)
                  (Some "2024-01-15") (Some (Some 1705276800000))
                  (Some (mkUser (Some 1) "admin")) (Some "1") None None), w') /\
    tasks_item w' = None /\ actions_item w' = None.
Proof.
  eapply (createTask_success_without_refresh
            (online [answer (OneTask server_rent)]) initial pay_rent admin
            _ _ server_rent "Pay rent" "2024-01-15" (mkUser (Some 1) "admin"));
    try reflexivity; left; reflexivity.
Defined.

Lemma provisional_id_has_eight_digits_witness :
  exists k, assigned_id offline initial = Some k /\ 10 ^ 7 <= k < 10 ^ 8.
Proof.
  apply provisional_id_has_eight_digits. vm_compute. discriminate.
Defined.

Lemma generateId_injective_witness :
  time_at offline (clock_reads initial) = time_at offline (clock_reads one_local_task) /\
  random_at offline (random_reads initial) = random_at offline (random_reads one_local_task).
Proof.
  apply generateId_injective; vm_compute; (discriminate || reflexivity).
Defined.

Lemma due_task_is_upcoming_not_overdue_witness :
  TasksScreen.getTaskStatus sample_parse 0 1705340000000
    (provisional_task sample_parse admin "local_1700000000000_k3j2h1g0f" pay_rent)
  = "upcoming".
Proof.
  edestruct (due_task_is_upcoming_not_overdue morning_of_15 two_tasks
               [provisional_task sample_parse admin "local_1700000000000_k3j2h1g0f" pay_rent]
               (provisional_task sample_parse admin "local_1700000000000_k3j2h1g0f" pay_rent)
               1705340000000) as [S _];
    [vm_compute; reflexivity | apply list_elem_of_In; left; reflexivity
     | vm_compute; reflexivity | exact S].
Defined.

Lemma toggle_complete_while_offline_witness :
  exists w' kept,
    TasksScreen.handleToggleComplete (Some 17000000) true [] offline one_local_task
    = (Ok (<[0%nat := kept]> (stored_tasks offline one_local_task), None), w') /\
    completed kept = Some true /\ needsSync kept = Some true.
Proof.
  edestruct (toggle_complete_while_offline offline one_local_task (Some 17000000) true [])
    as [A _]; [intros n; reflexivity |].
  edestruct (A 0%nat) as (w' & kept & T & C & N & _); [vm_compute; reflexivity |].
  exists w', kept. split; [exact T |]. split; [exact C | exact N].
Defined.

Lemma offline_task_after_login_is_owned_by_user_1_witness :
  exists t w',
    createTask pay_rent
      (with_session
         (snd (AuthService.login someone
                 (AuthService.Resolved true
                    (Some (AuthService.mkAuthResponse 200 (Some "jwt-carol"))))
                 (AuthService.mkSession None None)))
         offline) initial = (Ok t, w') /\
    user t = Some (mkUser (Some 1) "carol") /\
    userId t = Some "1" /\ isLocal t = Some true.
Proof.
  eapply (offline_task_after_login_is_owned_by_user_1
            someone "jwt-carol" (AuthService.mkSession None None) offline initial pay_rent).
  vm_compute. reflexivity.
Defined.

(** ** The daily reminder *)

Lemma tomorrow_at_nine_fixed_zone z offset now :
  (forall t, DailyCheck.LocalTime z t = t + offset) ->
  (forall t, DailyCheck.UTC z t = t - offset) ->
  exists date,
    DailyCheck.tomorrow_at_nine z now = Some date /\
    local_day offset date = local_day offset now + 1 /\
    (date + offset) mod msPerDay = 9 * 3600 * 1000 /\
    9 * 3600 * 1000 < date - now <= 33 * 3600 * 1000.
Proof.
  intros L U. eexists. split; [reflexivity |].
  unfold DailyCheck.setHours_9, DailyCheck.setDate_next.
  rewrite !L, !U. unfold local_day, msPerDay.
  replace (now + offset + 86400000 - offset + offset)
    with (now + 86400000 + offset) by lia.
  pose proof (Z.div_mod (now + 86400000 + offset) 86400000 ltac:(lia)) as D.
  pose proof (Z.mod_pos_bound (now + 86400000 + offset) 86400000 ltac:(lia)) as M.
  set (q := (now + 86400000 + offset) / 86400000) in *.
  set (m := (now + 86400000 + offset) mod 86400000) in *.
  replace ((now + offset) / 86400000) with (q - 1)
    by (apply Z.div_unique with m; lia).
  replace (q * 86400000 + 9 * 3600 * 1000 - offset + offset)
    with (9 * 3600 * 1000 + q * 86400000) by lia.
  rewrite Z.div_add by lia. rewrite Z.mod_add by lia.
  rewrite Z.div_small, Z.mod_small by lia. lia.
Qed.

(** Under the rules of the zone the trigger follows the wall clock, not a
    count of hours: in New York, from midnight on 2 November 2024, the day
    before daylight saving ends, 9:00 of the next day is 34 hours ahead. *)
Example tomorrow_at_nine_across_a_clock_change :
  DailyCheck.LocalTime new_york_autumn_2024 1730520000000
  = 20029 * msPerDay /\
  DailyCheck.tomorrow_at_nine new_york_autumn_2024 1730520000000
  = Some (1730520000000 + 34 * 3600 * 1000) /\
  DailyCheck.LocalTime new_york_autumn_2024 (1730520000000 + 34 * 3600 * 1000)
  = 20030 * msPerDay + 9 * 3600 * 1000.
Proof. repeat split. Qed.

(** X22. When the platform accepts the calls, [scheduleDailyTaskCheck]
    leaves exactly one notification waiting, whatever was waiting before, so
    calling it again never piles up reminders.  On Android its trigger is
    the date that [setDate] to the next day and [setHours] to 9:00 give
    under the rules of the zone; in a zone that keeps one offset from UTC
    that date is 9:00 local time on the next local day, more than 9 and at
    most 33 hours after the clock reading.  Elsewhere the trigger is the
    repeating calendar trigger 9:00.  When cancelling succeeds and
    scheduling is rejected, nothing is left waiting. *)
Theorem daily_check_leaves_one_reminder p z now pending :
  DailyCheck.cancel_rejects p = false ->
  (DailyCheck.schedule_rejects p = false ->
   (exists r, DailyCheck.scheduleDailyTaskCheck p z now pending = [r] /\
      DailyCheck.scheduleDailyTaskCheck p z now [r] = [r] /\
      (String.eqb (DailyCheck.OS p) "android" = true ->
       DailyCheck.trigger r
       = DailyCheck.DATE
           (Some (DailyCheck.setHours_9 z (DailyCheck.setDate_next z now))) /\
       forall offset,
         (forall t, DailyCheck.LocalTime z t = t + offset) ->
         (forall t, DailyCheck.UTC z t = t - offset) ->
         exists date,
           DailyCheck.trigger r = DailyCheck.DATE (Some date) /\
           local_day offset date = local_day offset now + 1 /\
           (date + offset) mod msPerDay = 9 * 3600 * 1000 /\
           9 * 3600 * 1000 < date - now <= 33 * 3600 * 1000) /\
      (String.eqb (DailyCheck.OS p) "android" = false ->
       DailyCheck.trigger r = DailyCheck.CALENDAR 9 0 true))) /\
  (DailyCheck.schedule_rejects p = true ->
   DailyCheck.scheduleDailyTaskCheck p z now pending = []).
Proof.
  intros C. unfold DailyCheck.scheduleDailyTaskCheck, DailyCheck.cancelAllNotifications.
  rewrite C. split; intros S; rewrite S; [| reflexivity].
  destruct (String.eqb (DailyCheck.OS p) "android") eqn:A; cbn.
  - eexists. split; [reflexivity |]. split; [reflexivity |].
    split; [| discriminate]. intros _. cbn. split; [reflexivity |].
    intros offset L U.
    destruct (tomorrow_at_nine_fixed_zone z offset now L U) as (date & E & H).
    exists date. split; [rewrite <- E; reflexivity | exact H].
  - eexists. split; [reflexivity |]. split; [reflexivity |].
    split; [discriminate |]. intros _. reflexivity.
Qed.

Lemma daily_check_leaves_one_reminder_witness :
  exists r,
    DailyCheck.scheduleDailyTaskCheck (DailyCheck.mkPlatform "android" false false)
      (DailyCheck.fixed_zone 0) 1705312800000
      [DailyCheck.good_morning (DailyCheck.CALENDAR 9 0 true)] = [r] /\
    DailyCheck.trigger r = DailyCheck.DATE (Some 1705395600000).
Proof.
  edestruct (daily_check_leaves_one_reminder
               (DailyCheck.mkPlatform "android" false false)
               (DailyCheck.fixed_zone 0) 1705312800000
               [DailyCheck.good_morning (DailyCheck.CALENDAR 9 0 true)])
    as [[r [E _]] _]; [reflexivity | reflexivity |].
  exists r. split; [exact E |]. injection E as <-. reflexivity.
Defined.

Lemma login_stores_only_on_success_witness :
  AuthService.login someone
    (AuthService.Resolved true (Some (AuthService.mkAuthResponse 200 (Some "jwt-carol"))))
    (AuthService.mkSession None None)
  = (Ok ("jwt-carol", AuthService.mkUser "1" "carol" "carol"),
     AuthService.mkSession (Some "jwt-carol")
       (Some (AuthService.mkUser "1" "carol" "carol"))) /\
  AuthService.login someone (AuthService.Rejected "Network request failed")
    (AuthService.mkSession None None)
  = (Throw (JsError "Network connection failed. Please check your internet connection."),
     AuthService.mkSession None None).
Proof.
  destruct (login_stores_only_on_success someone (AuthService.mkSession None None))
    as (Success & _ & _ & Network & _).
  split.
  - exact (proj1 (Success "jwt-carol")).
  - exact (Network "Network request failed").
Defined.
